(** * MagicBricks scraper (prop.py): a shallow embedding and its properties

    The development follows the single source file [prop.py], class
    [MagicBricksScraper]:

    - Python [str] values are sequences of Unicode code points ([list N]);
    - JSON values returned by [response.json()] are the inductive [pyval];
    - the network, the clock and the file system form the [world]; every
      request, sleep, rename, open and write is recorded in its [trace];
    - methods are computations in a state-and-exception monad [M]; a Python
      [Exception] is [Raise e], a [KeyboardInterrupt] (a [BaseException]
      that no [except Exception] clause catches) is the outcome [Interrupt]
      and arrives while a request is in flight;
    - the output files are opened with [encoding='utf-8']: a row or a
      document holding a lone surrogate cannot be written to them, and the
      write raises [UnicodeEncodeError];
    - console output ([print], [print_progress]) has no effect on any
      value or file and is left out. *)

From Stdlib Require Import ZArith NArith Ascii String DecimalString PrimFloat.
From stdpp Require Import base decidable option list sorting gmap.

Set Warnings "-register-all,-clear-no-such-hyp".
Local Open Scope Z_scope.

(** ** Python strings *)

Abbreviation str := (list N) (only parsing).

(** A string literal of the source, as code points. *)
Definition lit (s : string) : str := map N_of_ascii (list_ascii_of_string s).

(** [str.isspace] for one code point: the code points CPython's
    [_PyUnicode_IsWhitespace] accepts; [str.strip()] removes exactly these. *)
Definition isspace (c : N) : bool :=
  ((9 <=? c) && (c <=? 13) || (28 <=? c) && (c <=? 32)
   || (c =? 133) || (c =? 160) || (c =? 5760)
   || (8192 <=? c) && (c <=? 8202)
   || (c =? 8232) || (c =? 8233) || (c =? 8239) || (c =? 8287)
   || (c =? 12288))%N.

Fixpoint lstrip (s : str) : str :=
  match s with
  | c :: s' => if isspace c then lstrip s' else s
  | [] => []
  end.

Definition rstrip (s : str) : str := rev (lstrip (rev s)).

(** [s.strip()] *)
Definition strip (s : str) : str := rstrip (lstrip s).

(** [s.split(sep)] for a one-character separator: never the empty list,
    empty pieces are kept. *)
Fixpoint split (sep : N) (s : str) : list str :=
  match s with
  | [] => [[]]
  | c :: s' =>
      if (c =? sep)%N then [] :: split sep s'
      else match split sep s' with
           | p :: ps => (c :: p) :: ps
           | [] => [[c]]
           end
  end.

(** [sep.join(l)] *)
Fixpoint join (sep : str) (l : list str) : str :=
  match l with
  | [] => []
  | x :: l' =>
      match l' with
      | [] => x
      | _ :: _ => x ++ sep ++ join sep l'
      end
  end.

(** [c in s] for a one-character [c] *)
Definition contains (c : N) (s : str) : bool := existsb (N.eqb c) s.

(** [sub in s]: substring test *)
Fixpoint is_prefix (p s : str) : bool :=
  match p, s with
  | [], _ => true
  | _ :: _, [] => false
  | a :: p', b :: s' => (a =? b)%N && is_prefix p' s'
  end.

Fixpoint is_infix (p s : str) : bool :=
  is_prefix p s ||
  match s with
  | [] => false
  | _ :: s' => is_infix p s'
  end.

(** [a <= b] on strings: code point by code point, a proper prefix first. *)
Fixpoint str_le (a b : str) : bool :=
  match a, b with
  | [], _ => true
  | _ :: _, [] => false
  | x :: a', y :: b' =>
      if (x <? y)%N then true
      else if (x =? y)%N then str_le a' b' else false
  end.

Definition str_leq (a b : str) : Prop := str_le a b = true.
Definition str_lt (a b : str) : Prop := str_leq a b ∧ a ≠ b.

#[global] Instance str_leq_dec a b : Decision (str_leq a b).
Proof. unfold str_leq. apply _. Defined.

(** [sorted(xs)] on strings without duplicates. *)
Definition sorted (xs : list str) : list str := merge_sort str_leq xs.

Definition comma : N := 44.
Definition pipe : N := 124.

(** ** JSON values, as [json.loads] builds them

    A [dict] is an association list in insertion order with distinct keys. *)

Inductive pyval : Type :=
  | PNone
  | PBool (b : bool)
  | PInt (z : Z)
  | PFloat (f : float)
  | PStr (s : str)
  | PList (l : list pyval)
  | PDict (d : list (str * pyval)).

Abbreviation dict := (list (str * pyval)) (only parsing).

(** [bool(v)] *)
Definition truthy (v : pyval) : bool :=
  match v with
  | PNone => false
  | PBool b => b
  | PInt z => negb (z =? 0)
  | PFloat f => negb (PrimFloat.eqb f 0%float)
  | PStr s => negb (bool_decide (s = []))
  | PList l => negb (bool_decide (length l = 0%nat))
  | PDict d => negb (bool_decide (length d = 0%nat))
  end.

(** [d.get(key, default)] *)
Fixpoint dict_get (d : dict) (key : str) (default : pyval) : pyval :=
  match d with
  | [] => default
  | (k, v) :: d' => if bool_decide (k = key) then v else dict_get d' key default
  end.

(** [key in d] *)
Definition dict_has (d : dict) (key : str) : bool :=
  existsb (fun kv => bool_decide (kv.1 = key)) d.

(** [d[key] = v]: an existing key keeps its position, a new one goes last. *)
Fixpoint dict_set (d : dict) (key : str) (v : pyval) : dict :=
  match d with
  | [] => [(key, v)]
  | (k, x) :: d' =>
      if bool_decide (k = key) then (k, v) :: d' else (k, x) :: dict_set d' key v
  end.

Definition dict_keys (d : dict) : list str := map fst d.

(** ** Exceptions and outcomes *)

(** The instances of [Exception] the program tells apart.  [Timeout] and the
    next three derive from [requests.exceptions.RequestException];
    [RequestsJSONDecodeError] derives from [json.JSONDecodeError] as well.
    [UnicodeEncodeError] is what a file opened with [encoding='utf-8'] raises
    when it is given text it cannot encode. *)
Inductive exn : Type :=
  | Timeout
  | ConnectionError
  | HTTPError
  | RequestsJSONDecodeError
  | JSONDecodeError
  | AttributeError
  | TypeError
  | ValueError
  | UnicodeEncodeError
  | KeyError
  | FileNotFoundError
  | OtherError.

Definition is_Timeout (e : exn) : bool :=
  match e with Timeout => true | _ => false end.

Definition is_RequestException (e : exn) : bool :=
  match e with
  | Timeout | ConnectionError | HTTPError | RequestsJSONDecodeError => true
  | _ => false
  end.

Definition is_JSONDecodeError (e : exn) : bool :=
  match e with
  | RequestsJSONDecodeError | JSONDecodeError => true
  | _ => false
  end.

(** What a call does: return, raise an [Exception], or be cut short by a
    [KeyboardInterrupt]. *)
Inductive outcome (A : Type) : Type :=
  | Ret (a : A)
  | Raise (e : exn)
  | Interrupt.
Arguments Ret {A} a.
Arguments Raise {A} e.
Arguments Interrupt {A}.

(** ** Field Extractor: [getfloorPlan] *)

(** One turn of the loop over [unit_info.split('|')]. *)
Definition add_plan (unique_plans : gset str) (unit : str) : gset str :=
  if negb (bool_decide (unit = [])) && contains comma unit then
    let plan_value := strip (hd [] (split comma unit)) in
    if negb (bool_decide (plan_value = [])) then {[plan_value]} ∪ unique_plans
    else unique_plans
  else unique_plans.

Definition collect_plans (s : str) : gset str :=
  fold_left add_plan (split pipe s) ∅.

(** The body of the [try]: only a [str] has [split]. *)
Definition getfloorPlan_body (unit_info : pyval) : outcome str :=
  match unit_info with
  | PStr s => Ret (join (lit ", ") (sorted (elements (collect_plans s))))
  | _ => Raise AttributeError
  end.

Definition getfloorPlan (unit_info : pyval) : str :=
  if negb (truthy unit_info) then []
  else match getfloorPlan_body unit_info with
       | Ret r => r
       | _ => []          (* bare [except:] *)
       end.

(** ** State and exceptions: the monad [M] *)

Definition M (S A : Type) : Type := S → outcome A * S.

Definition ret {S A} (a : A) : M S A := λ s, (Ret a, s).
Definition raise {S A} (e : exn) : M S A := λ s, (Raise e, s).

Definition bind {S A B} (m : M S A) (k : A → M S B) : M S B :=
  λ s, match m s with
       | (Ret a, s') => k a s'
       | (Raise e, s') => (Raise e, s')
       | (Interrupt, s') => (Interrupt, s')
       end.

Declare Scope m_scope.
Delimit Scope m_scope with M.
Notation "x <- m ;; k" := (bind m (λ x, k))
  (at level 100, m at next level, right associativity) : m_scope.
Notation "m ;; k" := (bind m (λ _, k))
  (at level 100, right associativity) : m_scope.
Local Open Scope m_scope.

Definition get {S} : M S S := λ s, (Ret s, s).
Definition modify {S} (f : S → S) : M S unit := λ s, (Ret tt, f s).

(** [try: body / except Exception as e: handler e].  A [KeyboardInterrupt]
    is not an [Exception] and passes through. *)
Definition try_except {S A} (body : M S A) (handler : exn → M S A) : M S A :=
  λ s, match body s with
       | (Raise e, s') => handler e s'
       | r => r
       end.

(** A pure step that may raise. *)
Definition lift {S A} (o : outcome A) : M S A := λ s, (o, s).

(** Run a computation on the global state inside a frame with locals [L]. *)
Definition zoom {L S A} (m : M S A) : M (L * S) A :=
  λ ls, let (o, s') := m ls.2 in (o, (ls.1, s')).

(** Update the locals of the frame. *)
Definition locally {L S} (f : L → L) : M (L * S) unit :=
  λ ls, (Ret tt, (f ls.1, ls.2)).

Definition locals {L S} : M (L * S) L := λ ls, (Ret ls.1, ls).

(** [for x in xs: body x] *)
Fixpoint for_each {S A} (xs : list A) (body : A → M S unit) : M S unit :=
  match xs with
  | [] => ret tt
  | x :: xs' => body x ;; for_each xs' body
  end.

(** ** The world: network, clock, file system *)

(** [open] modes ['w'] and ['a']. *)
Inductive mode : Type := W | A.

#[global] Instance mode_eq_dec : EqDecision mode.
Proof. solve_decision. Defined.

(** The two URLs the session requests:
    [.../newProjectCards?&pageNo={page_no}&city=3327] and
    [https://www.magicbricks.com/{pdp_url}]. *)
Inductive request : Type :=
  | GetListing (page_no : Z)
  | GetDetail (pdp_url : pyval).

(** A string node found by [soup.find_all(string=...)]: the text of its
    parent, [get_text(strip=True)], and that text lower-cased by Python. *)
Record text_node : Type := {
  parent_text : str;
  parent_text_lower : str;
}.

(** The parsed page, as [getRera] looks at it: [select_one selector] is
    [None] or the [get_text(strip=True)] of the element found. *)
Record soup : Type := {
  select_one : str → option str;
  find_all_rera : list text_node;
}.

Record response : Type := {
  raise_for_status : option exn;
  json : exn + pyval;
  content : soup;
}.

Inductive get_result : Type :=
  | GetRaises (e : exn)
  | GetInterrupted
  | GetReturns (r : response).

(** A line of an output file: a CSV row, the document of [json.dump], or
    the beginning of that document, up to the first piece of text the file
    could not encode. *)
Inductive line : Type :=
  | Row (cells : list pyval)
  | Doc (v : pyval)
  | Torn (v : pyval).

Inductive event : Type :=
  | EvGet (r : request)
  | EvSleep (secs : Z)
  | EvMakedirs (path : str)
  | EvRename (src dst : str)
  | EvOpen (path : str) (m : mode)
  | EvWriteHeader (path : str) (cells : list pyval)
  | EvWriteRow (path : str) (cells : list pyval)
  | EvDump (path : str) (v : pyval).

(** [net n r] is what the [n]-th request of the run does when it asks for
    [r]; [clock] is [int(time.time())]. *)
Record world : Type := {
  net : nat → request → get_result;
  sent : nat;
  clock : Z;
  dirs : gset str;
  files : gmap str (list line);
  trace : list event;
}.

(** The fields of [self]. *)
Record scraper : Type := {
  output_dir : str;
  csv_filename : str;
  json_filename : str;
  scraped_count : Z;
  failed_count : Z;
}.

Record state : Type := {
  self : scraper;
  env : world;
}.

Definition log (e : event) (w : world) : world :=
  {| net := net w; sent := sent w; clock := clock w; dirs := dirs w;
     files := files w; trace := trace w ++ [e] |}.

Definition set_files (f : gmap str (list line)) (w : world) : world :=
  {| net := net w; sent := sent w; clock := clock w; dirs := dirs w;
     files := f; trace := trace w |}.

Definition set_dirs (d : gset str) (w : world) : world :=
  {| net := net w; sent := sent w; clock := clock w; dirs := d;
     files := files w; trace := trace w |}.

Definition with_env (f : world → world) (st : state) : state :=
  {| self := self st; env := f (env st) |}.

Definition with_self (f : scraper → scraper) (st : state) : state :=
  {| self := f (self st); env := env st |}.

Definition interrupt {S A} : M S A := λ s, (Interrupt, s).

(** The world once the request [r] has been sent. *)
Definition sent_request (r : request) (w : world) : world :=
  log (EvGet r)
    {| net := net w; sent := S (sent w); clock := clock w; dirs := dirs w;
       files := files w; trace := trace w |}.

(** What the next request does when it asks for [r]. *)
Definition next_response (st : state) (r : request) : get_result :=
  net (env st) (sent (env st)) r.

(** [self.session.get(url, timeout=10)] *)
Definition session_get (r : request) : M state response :=
  st <- get ;;
  modify (with_env (sent_request r)) ;;
  match next_response st r with
  | GetRaises e => raise e
  | GetInterrupted => interrupt
  | GetReturns resp => ret resp
  end.

(** [response.raise_for_status()] *)
Definition check_status (r : response) : M state unit :=
  match raise_for_status r with
  | Some e => raise e
  | None => ret tt
  end.

(** [response.json()] *)
Definition response_json (r : response) : M state pyval :=
  match json r with
  | inl e => raise e
  | inr v => ret v
  end.

(** [time.sleep(secs)] *)
Definition time_sleep (secs : Z) : M state unit :=
  modify (with_env (λ w, log (EvSleep secs)
    {| net := net w; sent := sent w; clock := clock w + secs; dirs := dirs w;
       files := files w; trace := trace w |})).

(** *** Paths ([posixpath]) *)

Definition slash : N := 47.
Definition is_slash (c : N) : bool := (c =? slash)%N.

Fixpoint lstrip_slash (s : str) : str :=
  match s with
  | c :: s' => if is_slash c then lstrip_slash s' else s
  | [] => []
  end.

(** [s.rstrip('/')] *)
Definition rstrip_slash (s : str) : str := rev (lstrip_slash (rev s)).

(** [p[:p.rfind('/') + 1]] *)
Fixpoint dirname_head (p : str) : str :=
  match p with
  | [] => []
  | c :: p' => if contains slash p then c :: dirname_head p' else []
  end.

(** [os.path.dirname(p)] *)
Definition dirname (p : str) : str :=
  let head := dirname_head p in
  if forallb is_slash head then head else rstrip_slash head.

(** [os.path.join(a, b)] *)
Definition os_path_join (a b : str) : str :=
  if is_prefix [slash] b then b
  else match last a with
       | None => b                          (* [not path] *)
       | Some c => if is_slash c then a ++ b else a ++ [slash] ++ b
       end.

(** The directory a new entry [p] goes into is there: the working
    directory, the root, or a directory of the world. *)
Definition parent_exists (w : world) (p : str) : bool :=
  let d := dirname p in
  forallb is_slash d || bool_decide (d ∈ dirs w).

(** [os.path.exists(p)] *)
Definition os_path_exists (p : str) : M state bool :=
  st <- get ;;
  ret (bool_decide (is_Some (files (env st) !! p)) || bool_decide (p ∈ dirs (env st))).

(** The prefixes of [p] that end before a separator, and [p] itself. *)
Fixpoint dir_prefixes (seen p : str) : list str :=
  match p with
  | [] => [rev seen]
  | c :: p' =>
      if is_slash c then rev seen :: dir_prefixes (c :: seen) p'
      else dir_prefixes (c :: seen) p'
  end.

(** [os.makedirs(name, exist_ok=True)]: every missing directory on the way
    is created; the empty name and a name taken by a file are errors. *)
Definition os_makedirs (name : str) : M state unit :=
  modify (with_env (log (EvMakedirs name))) ;;
  st <- get ;;
  let w := env st in
  let made := filter (λ d, d ≠ []) (map rstrip_slash (dir_prefixes [] name)) in
  if bool_decide (name = []) then raise FileNotFoundError
  else if existsb (λ d, bool_decide (is_Some (files w !! d))) made then raise OtherError
  else modify (with_env (set_dirs (list_to_set made ∪ dirs w))).

(** A path at or below [src] moves to the same place at or below [dst]. *)
Definition reprefix (src dst p : str) : str :=
  if bool_decide (p = src) then dst
  else if is_prefix (src ++ [slash]) p then dst ++ drop (length src) p
  else p.

Definition rename_below (src dst : str) (f : gmap str (list line))
  : gmap str (list line) :=
  list_to_map (map (λ kv, (reprefix src dst kv.1, kv.2)) (map_to_list f)).

(** [os.rename(src, dst)]: [FileNotFoundError] when [src] is missing or a
    directory on the way to [dst] does not exist (ENOENT of rename(2)). *)
Definition os_rename (src dst : str) : M state unit :=
  modify (with_env (log (EvRename src dst))) ;;
  st <- get ;;
  let w := env st in
  match files w !! src with
  | Some c =>
      if negb (parent_exists w dst) then raise FileNotFoundError
      else if bool_decide (dst ∈ dirs w) then raise OtherError
      else modify (with_env (set_files (<[dst := c]> (delete src (files w)))))
  | None =>
      if bool_decide (src ∈ dirs w) then
        if negb (parent_exists w dst) then raise FileNotFoundError
        else if bool_decide (is_Some (files w !! dst)) then raise OtherError
        else modify (with_env (λ w,
               set_dirs (set_map (reprefix src dst) (dirs w))
                 (set_files (rename_below src dst (files w)) w)))
      else raise FileNotFoundError
  end.

(** *** Files *)

(** [open(path, mode)].  ['w'] truncates or creates, ['a'] creates when
    missing and otherwise keeps the lines. *)
Definition open_ (path : str) (m : mode) : M state unit :=
  modify (with_env (log (EvOpen path m))) ;;
  st <- get ;;
  let w := env st in
  if bool_decide (path ∈ dirs w) then raise OtherError
  else if negb (parent_exists w path) then raise FileNotFoundError
  else match m, files w !! path with
       | A, Some _ => ret tt
       | _, _ => modify (with_env (set_files (<[path := []]> (files w))))
       end.

(** [f.tell()] right after [open]: 0 exactly when the file holds nothing
    (in mode ['a'] the position is the end of the file). *)
Definition tell (path : str) : M state Z :=
  st <- get ;;
  ret (Z.of_nat (length (default [] (files (env st) !! path)))).

Definition append_line (path : str) (l : line) (w : world) : world :=
  set_files (<[path := default [] (files w !! path) ++ [l]]> (files w)) w.

(** *** Text written to a file opened with [encoding='utf-8']

    A [str] may hold lone surrogates (code points U+D800 to U+DFFF), as
    [json.loads] returns them for an escape like ["\ud83d"]; utf-8 cannot
    encode them, and [write] raises [UnicodeEncodeError]. *)
Definition is_surrogate (c : N) : bool := ((55296 <=? c) && (c <=? 57343))%N.

(** [s.encode('utf-8')] succeeds. *)
Definition utf8_encodable (s : str) : bool := forallb (λ c, negb (is_surrogate c)) s.

(** The text of a cell, as [csv.writer] makes it, can be encoded: a [str]
    is written as it is; [None] is written as nothing and any other value
    as its [str()], which is the [repr()] for numbers, lists and dicts and
    escapes the surrogates inside them. *)
Definition cell_encodable (v : pyval) : bool :=
  match v with
  | PStr s => utf8_encodable s
  | _ => true
  end.

(** [csv.DictWriter._dict_to_list]: a key outside [fieldnames] is a
    [ValueError]; a missing one is written as [restval = '']. *)
Definition dict_to_list (fieldnames : list str) (rowdict : dict)
  : outcome (list pyval) :=
  if forallb (λ k, bool_decide (k ∈ fieldnames)) (dict_keys rowdict)
  then Ret (map (λ key, dict_get rowdict key (PStr [])) fieldnames)
  else Raise ValueError.

(** [writer.writerow(rowdict)]: the text of the whole row goes to the file
    in one [write], which raises and writes nothing when a cell cannot be
    encoded. *)
Definition writerow (path : str) (fieldnames : list str) (rowdict : dict)
  : M state unit :=
  cells <- lift (dict_to_list fieldnames rowdict) ;;
  if forallb cell_encodable cells
  then modify (with_env (λ w, append_line path (Row cells) (log (EvWriteRow path cells) w)))
  else raise UnicodeEncodeError.

(** [writer.writeheader()]: the row of [dict(zip(fieldnames, fieldnames))]. *)
Definition writeheader (path : str) (fieldnames : list str) : M state unit :=
  cells <- lift (dict_to_list fieldnames (map (λ k, (k, PStr k)) fieldnames)) ;;
  if forallb cell_encodable cells
  then modify (with_env (λ w, append_line path (Row cells) (log (EvWriteHeader path cells) w)))
  else raise UnicodeEncodeError.

(** ** Persistence Sink: [write_to_csv] *)

Definition fieldnames : list str :=
  [lit "Name"; lit "Developer Name"; lit "Price Range"; lit "No of units";
   lit "Brochure"; lit "Total Acres"; lit "Floor Plan"; lit "RERA Number"].

Definition write_to_csv (projects : list dict) (m : mode) : M state bool :=
  if bool_decide (projects = []) then ret false
  else
    try_except
      (st <- get ;;
       let csvfile := csv_filename (self st) in
       open_ csvfile m ;;
       pos <- tell csvfile ;;
       (if bool_decide (m = W) || (pos =? 0)
        then writeheader csvfile fieldnames else ret tt) ;;
       for_each projects (writerow csvfile fieldnames) ;;
       ret true)
      (λ _, ret false).

(** ** Detail Fetcher: [getRera] *)

Definition dquote : str := [34%N].

Definition rera_selectors : list str :=
  [lit "span.pdp__header--reraid__id";
   lit "span[class*=" ++ dquote ++ lit "rera" ++ dquote ++ lit "]";
   lit "div[class*=" ++ dquote ++ lit "rera" ++ dquote ++ lit "]";
   lit "span.rera-id";
   lit ".rera-number"].

Definition nonempty (s : str) : bool := negb (bool_decide (s = [])).

(** The loop over [rera_selectors], from the value [rera_text] has so far. *)
Fixpoint probe (sp : soup) (selectors : list str) (rera_text : str) : str :=
  match selectors with
  | [] => rera_text
  | selector :: rest =>
      match select_one sp selector with
      | Some text => if nonempty text then text else probe sp rest text
      | None => probe sp rest rera_text
      end
  end.

(** The fallback loop over the strings that mention "rera". *)
Fixpoint scan (rera_elements : list text_node) (rera_text : str) : str :=
  match rera_elements with
  | [] => rera_text
  | element :: rest =>
      if is_infix (lit "rera") (parent_text_lower element)
      then parent_text element
      else scan rest rera_text
  end.

(** From the parsed page to the returned text: the selectors, then the
    fallback, then ["Not Available"]. *)
Definition extract_rera (sp : soup) : str :=
  let rera_text := probe sp rera_selectors [] in
  let rera_text :=
    if nonempty rera_text then rera_text else scan (find_all_rera sp) rera_text in
  if nonempty rera_text then rera_text else lit "Not Available".

Definition getRera_body (pdp_url : pyval) : M state str :=
  response <- session_get (GetDetail pdp_url) ;;
  check_status response ;;
  ret (extract_rera (content response)).

Definition getRera (pdp_url : pyval) : M state str :=
  if negb (truthy pdp_url) then ret []
  else
    try_except (getRera_body pdp_url)
      (λ e, if is_Timeout e then ret (lit "Timeout")
            else if is_RequestException e then ret (lit "Network Error")
            else ret (lit "Error")).

(** ** Page Harvester: [scrape_single_page] *)

(** [key in v] *)
Definition py_contains (key : str) (v : pyval) : outcome bool :=
  match v with
  | PDict d => Ret (dict_has d key)
  | PList l =>
      Ret (existsb (λ x, match x with
                         | PStr s => bool_decide (s = key)
                         | _ => false
                         end) l)
  | PStr s => Ret (is_infix key s)
  | _ => Raise TypeError
  end.

(** [v[key]] for a string [key] *)
Definition py_getitem (v : pyval) (key : str) : outcome pyval :=
  match v with
  | PDict d => if dict_has d key then Ret (dict_get d key PNone) else Raise KeyError
  | _ => Raise TypeError
  end.

(** [len(v)] *)
Definition py_len (v : pyval) : outcome Z :=
  match v with
  | PStr s => Ret (Z.of_nat (length s))
  | PList l => Ret (Z.of_nat (length l))
  | PDict d => Ret (Z.of_nat (length d))
  | _ => Raise TypeError
  end.

(** The items [for x in v] goes through: the elements of a list, the keys
    of a dict, the characters of a string. *)
Definition py_iter (v : pyval) : outcome (list pyval) :=
  match v with
  | PList l => Ret l
  | PDict d => Ret (map (λ kv, PStr kv.1) d)
  | PStr s => Ret (map (λ c, PStr [c]) s)
  | _ => Raise TypeError
  end.

(** [project.get(key, '')]: only a dict has [get]. *)
Definition py_get (project : pyval) (key : str) : outcome pyval :=
  match project with
  | PDict d => Ret (dict_get d key (PStr []))
  | _ => Raise AttributeError
  end.

(** [rera_stats]: the dict with the keys ['success'] and ['failed']. *)
Record stats : Type := {
  success : Z;
  failed : Z;
}.

Definition zero_stats : stats := {| success := 0; failed := 0 |}.

(** The locals of [scrape_single_page] that its loop updates. *)
Record page_locals : Type := {
  projects : list dict;
  rera_stats : stats;
}.

Definition incr_success (l : page_locals) : page_locals :=
  {| projects := projects l;
     rera_stats := {| success := success (rera_stats l) + 1;
                      failed := failed (rera_stats l) |} |}.

Definition incr_failed (l : page_locals) : page_locals :=
  {| projects := projects l;
     rera_stats := {| success := success (rera_stats l);
                      failed := failed (rera_stats l) + 1 |} |}.

Definition append_project (project_data : dict) (l : page_locals) : page_locals :=
  {| projects := projects l ++ [project_data]; rera_stats := rera_stats l |}.

Definition incr_scraped_count (sc : scraper) : scraper :=
  {| output_dir := output_dir sc; csv_filename := csv_filename sc;
     json_filename := json_filename sc;
     scraped_count := scraped_count sc + 1; failed_count := failed_count sc |}.

Definition incr_failed_count (sc : scraper) : scraper :=
  {| output_dir := output_dir sc; csv_filename := csv_filename sc;
     json_filename := json_filename sc;
     scraped_count := scraped_count sc; failed_count := failed_count sc + 1 |}.

(** The four results of [getRera] that count as a failed lookup. *)
Definition rera_failures : list str :=
  [lit "Not Available"; lit "Timeout"; lit "Network Error"; lit "Error"].

(** [rera_number and rera_number not in [...]] *)
Definition rera_found (rera_number : str) : bool :=
  nonempty rera_number && negb (bool_decide (rera_number ∈ rera_failures)).

(** The body of the [try] inside the loop over [data['projectsCards']]. *)
Definition process_project (project : pyval) : M (page_locals * state) unit :=
  psmName <- lift (py_get project (lit "psmName")) ;;
  lmtDName <- lift (py_get project (lit "lmtDName")) ;;
  showPriceRange <- lift (py_get project (lit "showPriceRange")) ;;
  totalUnits <- lift (py_get project (lit "totalUnits")) ;;
  sblink <- lift (py_get project (lit "sblink")) ;;
  projArea <- lift (py_get project (lit "projArea")) ;;
  unitInfo <- lift (py_get project (lit "unitInfo")) ;;
  let project_data : dict :=
    [(lit "Name", psmName);
     (lit "Developer Name", lmtDName);
     (lit "Price Range", showPriceRange);
     (lit "No of units", totalUnits);
     (lit "Brochure", sblink);
     (lit "Total Acres", projArea);
     (lit "Floor Plan", PStr (getfloorPlan unitInfo));
     (lit "RERA Number", PStr [])] in
  pdp_url <- lift (py_get project (lit "pdpUrl")) ;;
  project_data <-
    (if truthy pdp_url then
       rera_number <- zoom (getRera pdp_url) ;;
       let project_data := dict_set project_data (lit "RERA Number") (PStr rera_number) in
       (if rera_found rera_number
        then locally incr_success else locally incr_failed) ;;
       zoom (time_sleep 1) ;;
       ret project_data
     else
       let project_data :=
         dict_set project_data (lit "RERA Number") (PStr (lit "No PDP URL")) in
       locally incr_failed ;;
       ret project_data) ;;
  locally (append_project project_data) ;;
  zoom (modify (with_self incr_scraped_count)).

(** One turn of that loop: a record that raises is counted and skipped. *)
Definition harvest_project (project : pyval) : M (page_locals * state) unit :=
  try_except (process_project project)
    (λ _, zoom (modify (with_self incr_failed_count))).

(** Run a frame from its initial locals and hand back the final ones. *)
Definition in_frame {L S A} (l0 : L) (m : M (L * S) A) : M S (A * L) :=
  λ s, match m (l0, s) with
       | (Ret a, ls) => (Ret (a, ls.1), ls.2)
       | (Raise e, ls) => (Raise e, ls.2)
       | (Interrupt, ls) => (Interrupt, ls.2)
       end.

Definition scrape_single_page_body (page_no : Z) : M state (list dict * stats) :=
  response <- session_get (GetListing page_no) ;;
  check_status response ;;
  data <- response_json response ;;
  let l0 := {| projects := []; rera_stats := zero_stats |} in
  has_key <- lift (py_contains (lit "projectsCards") data) ;;
  cards_truthy <-
    (if has_key
     then cards <- lift (py_getitem data (lit "projectsCards")) ;; ret (truthy cards)
     else ret false) ;;
  if cards_truthy then
    cards <- lift (py_getitem data (lit "projectsCards")) ;;
    lift (py_len cards) ;;
    items <- lift (py_iter cards) ;;
    r <- in_frame l0 (for_each items harvest_project) ;;
    ret (projects r.2, rera_stats r.2)
  else ret ([], rera_stats l0).

Definition scrape_single_page (page_no : Z) : M state (list dict * stats) :=
  try_except (scrape_single_page_body page_no)
    (λ e, if is_RequestException e then ret ([], zero_stats)
          else if is_JSONDecodeError e then ret ([], zero_stats)
          else ret ([], zero_stats)).

(** ** Run Controller: [scrape_multiple_pages] *)

(** The locals of [scrape_multiple_pages] that its loop updates. *)
Record run_locals : Type := {
  all_projects : list dict;
  current_batch : list dict;
  total_rera_stats : stats;
}.

Definition add_stats (page_rera_stats : stats) (l : run_locals) : run_locals :=
  {| all_projects := all_projects l; current_batch := current_batch l;
     total_rera_stats :=
       {| success := success (total_rera_stats l) + success page_rera_stats;
          failed := failed (total_rera_stats l) + failed page_rera_stats |} |}.

Definition extend (page_projects : list dict) (l : run_locals) : run_locals :=
  {| all_projects := all_projects l ++ page_projects;
     current_batch := current_batch l ++ page_projects;
     total_rera_stats := total_rera_stats l |}.

Definition clear_batch (l : run_locals) : run_locals :=
  {| all_projects := all_projects l; current_batch := [];
     total_rera_stats := total_rera_stats l |}.

(** [len(xs)] *)
Definition len {X} (xs : list X) : Z := Z.of_nat (length xs).

(** ['w' if page_no == start_page and len(all_projects) <= batch_size else 'a'] *)
Definition batch_mode (page_no start_page batch_size : Z) (l : run_locals) : mode :=
  if (page_no =? start_page) && (len (all_projects l) <=? batch_size) then W else A.

(** ['w' if not all_projects else 'a'] *)
Definition final_mode (l : run_locals) : mode :=
  if bool_decide (all_projects l = []) then W else A.

(** The body of the [try] inside the loop over the pages. *)
Definition page_body (start_page end_page batch_size page_no : Z)
  : M (run_locals * state) unit :=
  r <- zoom (scrape_single_page page_no) ;;
  let page_projects := r.1 in
  let page_rera_stats := r.2 in
  locally (add_stats page_rera_stats) ;;
  (if negb (bool_decide (page_projects = [])) then
     locally (extend page_projects) ;;
     l <- locals ;;
     if batch_size <=? len (current_batch l) then
       zoom (write_to_csv (current_batch l) (batch_mode page_no start_page batch_size l)) ;;
       locally clear_batch
     else ret tt
   else ret tt) ;;
  if page_no <? end_page then zoom (time_sleep 2) else ret tt.

(** [for page_no in range(...)]: [KeyboardInterrupt] breaks out of the
    loop, any [Exception] is counted and the loop goes on. *)
Fixpoint page_loop (start_page end_page batch_size : Z) (pages : list Z)
  : M (run_locals * state) unit :=
  match pages with
  | [] => ret tt
  | page_no :: rest =>
      λ s, match page_body start_page end_page batch_size page_no s with
           | (Ret _, s') => page_loop start_page end_page batch_size rest s'
           | (Raise _, s') =>
               (zoom (modify (with_self incr_failed_count)) ;;
                page_loop start_page end_page batch_size rest) s'
           | (Interrupt, s') => (Ret tt, s')
           end
  end.

(** [range(lo, hi)] *)
Definition range (lo hi : Z) : list Z :=
  map (λ i, lo + Z.of_nat i) (seq 0 (Z.to_nat (hi - lo))).

(** [str(n)] for an integer *)
Definition str_of_int (n : Z) : str := lit (NilZero.string_of_int (Z.to_int n)).

(** [f"backup_{int(time.time())}_{self.csv_filename}"] *)
Definition backup_name_of (now : Z) (csv : str) : str :=
  lit "backup_" ++ str_of_int now ++ lit "_" ++ csv.

(** With [ensure_ascii=False] every string of the document, key or value,
    at any depth, is written as it is (only quotes, backslashes and control
    characters are escaped): the document can be encoded when each of them
    can. *)
Fixpoint json_encodable (v : pyval) : bool :=
  match v with
  | PStr s => utf8_encodable s
  | PList l => forallb json_encodable l
  | PDict d => forallb (λ '(key, x), utf8_encodable key && json_encodable x) d
  | _ => true
  end.

(** [json.dump(all_projects, f, indent=2, ensure_ascii=False)] into a
    freshly opened file.  The text is written piece by piece; a piece that
    cannot be encoded raises [UnicodeEncodeError], and the file keeps the
    pieces before it.  A document that cannot be encoded is a list that is
    not empty, whose opening bracket is such a piece. *)
Definition write_json (path : str) (all : list dict) : M state unit :=
  open_ path W ;;
  let v := PList (map PDict all) in
  if json_encodable v
  then modify (with_env (λ w, append_line path (Doc v) (log (EvDump path v) w)))
  else modify (with_env (λ w, append_line path (Torn v) (log (EvDump path v) w))) ;;
       raise UnicodeEncodeError.

Definition scrape_multiple_pages_body (start_page end_page batch_size : Z)
  : M (run_locals * state) (list dict * stats) :=
  st <- zoom get ;;
  let csv := csv_filename (self st) in
  csv_exists <- zoom (os_path_exists csv) ;;
  (if (start_page =? 1) && csv_exists then
     now <- zoom get ;;
     zoom (os_rename csv (backup_name_of (clock (env now)) csv))
   else ret tt) ;;
  page_loop start_page end_page batch_size (range start_page (end_page + 1)) ;;
  l <- locals ;;
  (if negb (bool_decide (current_batch l = [])) then
     zoom (write_to_csv (current_batch l) (final_mode l)) ;; ret tt
   else ret tt) ;;
  zoom (try_except (write_json (json_filename (self st)) (all_projects l))
          (λ _, ret tt)) ;;
  ret (all_projects l, total_rera_stats l).

Definition scrape_multiple_pages (start_page end_page batch_size : Z)
  : M state (list dict * stats) :=
  r <- in_frame {| all_projects := []; current_batch := [];
                   total_rera_stats := zero_stats |}
         (scrape_multiple_pages_body start_page end_page batch_size) ;;
  ret r.1.

(** ** [__init__] *)

Definition MagicBricksScraper (output_dir : str) (w : world) : outcome unit * state :=
  os_makedirs output_dir
    {| self := {| output_dir := output_dir;
                  csv_filename := os_path_join output_dir (lit "magicbricks_projects.csv");
                  json_filename := os_path_join output_dir (lit "magicbricks_projects.json");
                  scraped_count := 0;
                  failed_count := 0 |};
       env := w |}.


(** ** Definitions used to state the properties *)

(** [x] is the plan label the entry [unit] contributes. *)
Definition plan_of (unit x : str) : Prop :=
  contains comma unit = true ∧ x = strip (hd [] (split comma unit)) ∧ x ≠ [].

(** The result of [getfloorPlan] on a string: the sorted plan labels. *)
Definition plan_labels (s : str) : list str := sorted (elements (collect_plans s)).

(** The claim's description read literally: the trimmed first comma-segment
    of every entry that holds a comma, without duplicates, sorted, joined. *)
Definition normalizeFloorPlans (rawUnitInfo : str) : str :=
  join (lit ", ")
    (sorted (remove_dups
       (map (λ unit, strip (hd [] (split comma unit)))
          (filter (λ unit, contains comma unit = true) (split pipe rawUnitInfo))))).


(** The request for [r] fails with [e]: [session.get] or
    [raise_for_status] raises it. *)
Definition request_raises (st : state) (r : request) (e : exn) : Prop :=
  next_response st r = GetRaises e
  ∨ ∃ resp, next_response st r = GetReturns resp ∧ raise_for_status resp = Some e.

(** The request for [r] returns [resp], whose status is good. *)
Definition request_returns (st : state) (r : request) (resp : response) : Prop :=
  next_response st r = GetReturns resp ∧ raise_for_status resp = None.


(** Worlds for the examples: a page without any registration element, a
    page that shows one, and a network that answers every request alike. *)
Definition blank_page : soup := {| select_one := λ _, None; find_all_rera := [] |}.

Definition rera_page (text : str) : soup :=
  {| select_one := λ selector,
       if bool_decide (selector = lit "span.rera-id") then Some text else None;
     find_all_rera := [] |}.

Definition html (sp : soup) : get_result :=
  GetReturns {| raise_for_status := None; json := inl JSONDecodeError; content := sp |}.

Definition body (v : pyval) : get_result :=
  GetReturns {| raise_for_status := None; json := inr v; content := blank_page |}.

Definition world_of (answers : nat → request → get_result) : world :=
  {| net := answers; sent := 0; clock := 1700000000; dirs := ∅; files := ∅;
     trace := [] |}.

Definition scraper_in (dir : str) : scraper :=
  {| output_dir := dir;
     csv_filename := os_path_join dir (lit "magicbricks_projects.csv");
     json_filename := os_path_join dir (lit "magicbricks_projects.json");
     scraped_count := 0; failed_count := 0 |}.

Definition state_of (answers : nat → request → get_result) : state :=
  {| self := scraper_in (lit "output"); env := world_of answers |}.

(** The listing request for page [page_no] fails, or the body it returns
    has no records key. *)
Inductive page_unavailable (st : state) (page_no : Z) : Prop :=
  | request_failed e :
      request_raises st (GetListing page_no) e → page_unavailable st page_no
  | invalid_json resp e :
      request_returns st (GetListing page_no) resp →
      json resp = inl e → page_unavailable st page_no
  | no_records_key resp data :
      request_returns st (GetListing page_no) resp →
      json resp = inr data →
      py_contains (lit "projectsCards") data ≠ Ret true →
      page_unavailable st page_no.

(** A raw record with a name, unit info and a detail path. *)
Definition raw_record (name unit_info pdp : string) : pyval :=
  PDict [(lit "psmName", PStr (lit name));
         (lit "unitInfo", PStr (lit unit_info));
         (lit "pdpUrl", PStr (lit pdp))].

Definition listing (cards : list pyval) : get_result :=
  body (PDict [(lit "projectsCards", PList cards)]).

(** The row [writerow] writes for a record: its values under the field
    names, in the order of the field names. *)
Definition row_of (d : dict) : list pyval :=
  map (λ key, dict_get d key (PStr [])) fieldnames.

(** The row [writeheader] writes. *)
Definition header_row : list pyval := map PStr fieldnames.

(** utf-8 can encode every cell of the record's row. *)
Definition encodable_row (d : dict) : bool := forallb cell_encodable (row_of d).

(** The records before the first one whose row cannot be encoded. *)
Fixpoint encodable_prefix (projects : list dict) : list dict :=
  match projects with
  | [] => []
  | d :: rest => if encodable_row d then d :: encodable_prefix rest else []
  end.

(** The lines of the file at [path]; none when there is no such file. *)
Definition file_lines (st : state) (path : str) : list line :=
  default [] (files (env st) !! path).

(** [open(path, ...)] can succeed: [path] is no directory and the directory
    it lies in exists. *)
Definition can_open (st : state) (path : str) : Prop :=
  (path ∉ dirs (env st)) ∧ parent_exists (env st) path = true.

(** The modes in which [path] was opened, in the order of the trace. *)
Fixpoint open_modes (path : str) (tr : list event) : list mode :=
  match tr with
  | [] => []
  | EvOpen p m :: tr' =>
      if bool_decide (p = path) then m :: open_modes path tr' else open_modes path tr'
  | _ :: tr' => open_modes path tr'
  end.

(** The state [MagicBricksScraper()] starts from: the default output
    directory has been made in an otherwise empty file system. *)
Definition fresh_state (answers : nat → request → get_result) : state :=
  (MagicBricksScraper (lit "output") (world_of answers)).2.

(** A listing record as the harvester builds it. *)
Definition listing_record (name plan rera : string) : dict :=
  [(lit "Name", PStr (lit name));
   (lit "Developer Name", PStr []);
   (lit "Price Range", PStr []);
   (lit "No of units", PStr []);
   (lit "Brochure", PStr []);
   (lit "Total Acres", PStr []);
   (lit "Floor Plan", PStr (lit plan));
   (lit "RERA Number", PStr (lit rera))].

(** A listing API that serves [first] on page 1, [second] on page 2 and
    an empty body on every other page; detail pages time out. *)
Definition two_pages (first second : list pyval) (n : nat) (r : request) : get_result :=
  match r with
  | GetListing 1 => listing first
  | GetListing 2 => listing second
  | GetListing _ => body (PDict [])
  | GetDetail _ => GetRaises Timeout
  end.

(** Three raw records without a detail path. *)
Definition three_records : list pyval :=
  [raw_record "A" "2BHK,900sqft" ""; raw_record "B" "3BHK,1200sqft" "";
   raw_record "C" "1BHK,500sqft" ""].

(** What the loop of [scrape_multiple_pages] keeps true: the batch in
    progress is the end of everything collected so far. *)
Definition batch_within_corpus (l : run_locals) : Prop :=
  ∃ flushed, all_projects l = flushed ++ current_batch l.

(** The state of a second run: the first left its CSV file behind. *)
Definition rerun_state (answers : nat → request → get_result) : state :=
  with_env (λ w, set_files
                   (<[lit "output/magicbricks_projects.csv" := [Row header_row]]> (files w))
                   w)
    (fresh_state answers).

(** The world after [time.sleep(secs)]. *)
Definition slept (secs : Z) (w : world) : world :=
  log (EvSleep secs)
    {| net := net w; sent := sent w; clock := clock w + secs; dirs := dirs w;
       files := files w; trace := trace w |}.

(** [writerow] accepts the record: no key outside the field names, and a
    row that can be encoded. *)
Definition valid_record (d : dict) : bool :=
  forallb (λ k, bool_decide (k ∈ fieldnames)) (dict_keys d) && encodable_row d.

(** The records before the first one that [writerow] refuses. *)
Fixpoint valid_prefix (projects : list dict) : list dict :=
  match projects with
  | [] => []
  | d :: rest => if valid_record d then d :: valid_prefix rest else []
  end.

(** The world after [open(path, m)] went well. *)
Definition opened_for (path : str) (m : mode) (w : world) : world :=
  match m, files w !! path with
  | A, Some _ => log (EvOpen path m) w
  | _, _ => set_files (<[path := []]> (files w)) (log (EvOpen path m) w)
  end.

(** The lines of the file at [path] in a world. *)
Definition lines_at (w : world) (path : str) : list line :=
  default [] (files w !! path).

(** The world after the header step of [write_to_csv]. *)
Definition header_written (path : str) (m : mode) (w : world) : world :=
  if bool_decide (m = W) || bool_decide (lines_at w path = [])
  then append_line path (Row header_row) (log (EvWriteHeader path header_row) w)
  else w.

(** The world after one row per record was written. *)
Definition rows_written (path : str) (ds : list dict) (w : world) : world :=
  fold_left (λ w d, append_line path (Row (row_of d)) (log (EvWriteRow path (row_of d)) w))
    ds w.

(** [open(path, ...)] can succeed, as a test. *)
Definition can_open_b (w : world) (path : str) : bool :=
  negb (bool_decide (path ∈ dirs w)) && parent_exists w path.

(** Every key of the record is one of the field names. *)
Definition known_keys (d : dict) : Prop :=
  ∀ k, k ∈ dict_keys d → k ∈ fieldnames.

(** The header lines a flush in mode [m] adds to a file that held [old]. *)
Definition header_lines (m : mode) (old : list line) : list line :=
  if bool_decide (m = W) || bool_decide (old = []) then [Row header_row] else [].

(** The lines a flush in mode [m] starts from. *)
Definition kept_lines (m : mode) (old : list line) : list line :=
  if bool_decide (m = W) then [] else old.

(** A record with a key that is no field name. *)
Definition stray_record : dict :=
  [(lit "Name", PStr (lit "Stray")); (lit "Phone", PStr (lit "000"))].

(** The locals [scrape_single_page] starts its loop with. *)
Definition empty_page : page_locals := {| projects := []; rera_stats := zero_stats |}.


(** The locals [scrape_multiple_pages] starts with. *)
Definition empty_run : run_locals :=
  {| all_projects := []; current_batch := []; total_rera_stats := zero_stats |}.

(** The locals and the state after the flush step of a page that returned
    records: a flush when the batch has reached the batch size. *)
Definition after_batch_step (start_page batch_size page_no : Z)
    (l : run_locals) (st : state) : run_locals * state :=
  if batch_size <=? len (current_batch l) then
    (clear_batch l,
     (write_to_csv (current_batch l) (batch_mode page_no start_page batch_size l) st).2)
  else (l, st).

(** The locals and the state after a page that returned [r]. *)
Definition after_page (start_page batch_size page_no : Z)
    (r : list dict * stats) (l : run_locals) (st : state) : run_locals * state :=
  if bool_decide (r.1 = []) then (add_stats r.2 l, st)
  else after_batch_step start_page batch_size page_no (extend r.1 (add_stats r.2 l)) st.

(** The pause between two pages. *)
Definition page_pause (end_page page_no : Z) (st : state) : state :=
  if page_no <? end_page then with_env (slept 2) st else st.

(** The condition under which the run tries to back up a prior CSV file. *)
Definition backup_due (start_page : Z) (st : state) : bool :=
  (start_page =? 1)
  && (bool_decide (is_Some (files (env st) !! csv_filename (self st)))
      || bool_decide (csv_filename (self st) ∈ dirs (env st))).

(** The state after the finalization flush of what is left in the batch. *)
Definition finalized (l : run_locals) (st : state) : state :=
  if bool_decide (current_batch l = []) then st
  else (write_to_csv (current_batch l) (final_mode l) st).2.

(** The document [json.dump] writes for the corpus. *)
Definition snapshot_of (all : list dict) : pyval := PList (map PDict all).

(** The state after a snapshot step that wrote the whole document, or gave
    up when the file cannot be opened. *)
Definition snapshot_written (path : str) (all : list dict) (st : state) : state :=
  if can_open_b (env st) path
  then with_env (λ w, append_line path (Doc (snapshot_of all))
                        (log (EvDump path (snapshot_of all)) (opened_for path W w))) st
  else with_env (log (EvOpen path W)) st.

(** The state after a snapshot step that was cut short: the file was
    emptied and holds the beginning of the document. *)
Definition snapshot_torn (path : str) (all : list dict) (st : state) : state :=
  if can_open_b (env st) path
  then with_env (λ w, append_line path (Torn (snapshot_of all))
                        (log (EvDump path (snapshot_of all)) (opened_for path W w))) st
  else with_env (log (EvOpen path W)) st.

(** The state after the snapshot step, whose exceptions the run swallows. *)
Definition snapshot_step (path : str) (all : list dict) (st : state) : state :=
  if json_encodable (snapshot_of all)
  then snapshot_written path all st
  else snapshot_torn path all st.

(** A record whose name holds a lone surrogate. *)
Definition surrogate_record : dict :=
  [(lit "Name", PStr [55357%N]);
   (lit "Developer Name", PStr []);
   (lit "Price Range", PStr []);
   (lit "No of units", PStr []);
   (lit "Brochure", PStr []);
   (lit "Total Acres", PStr []);
   (lit "Floor Plan", PStr []);
   (lit "RERA Number", PStr (lit "No PDP URL"))].

(** A listing page whose one record has a lone surrogate for a name, as
    [json.loads] builds it from the escape [\ud83d]. *)
Definition surrogate_page : list pyval :=
  [PDict [(lit "psmName", PStr [55357%N])]].

(** The locals and the state when the page loop of a run has ended. *)
Definition loop_end (start_page end_page batch_size : Z) (st : state)
  : run_locals * state :=
  (page_loop start_page end_page batch_size (range start_page (end_page + 1))
     (empty_run, st)).2.

(** From [st] to [st'] no directory was made or removed, the scraper's
    paths are the same, and every file whose path satisfies [keep] holds
    what it held. *)
Definition untouched (keep : str → Prop) (st st' : state) : Prop :=
  dirs (env st') = dirs (env st)
  ∧ output_dir (self st') = output_dir (self st)
  ∧ csv_filename (self st') = csv_filename (self st)
  ∧ json_filename (self st') = json_filename (self st)
  ∧ ∀ p, keep p → files (env st') !! p = files (env st) !! p.


(** The batch in progress is empty or shorter than the batch size. *)
Definition batch_below (batch_size : Z) (l : run_locals) : Prop :=
  current_batch l = [] ∨ len (current_batch l) < batch_size.

(** The listing records harvested from [three_records]. *)
Definition three_listed : list dict :=
  [listing_record "A" "2BHK" "No PDP URL"; listing_record "B" "3BHK" "No PDP URL";
   listing_record "C" "1BHK" "No PDP URL"].

(** The directories [os.makedirs(name)] makes sure of. *)
Definition made_dirs (name : str) : list str :=
  filter (λ d, d ≠ []) (map rstrip_slash (dir_prefixes [] name)).
(** * Properties *)

(** ** Strings *)

Lemma str_le_refl a : str_le a a = true.
Proof.
  induction a as [|x a IH]; simpl; [done|].
  rewrite N.ltb_irrefl, N.eqb_refl. exact IH.
Qed.

Lemma str_le_total a b : str_le a b = true ∨ str_le b a = true.
Proof.
  revert b. induction a as [|x a IH]; intros [|y b]; simpl; auto.
  destruct (N.ltb_spec x y), (N.ltb_spec y x); auto; try lia.
  assert (x = y) as -> by lia. rewrite N.eqb_refl. apply IH.
Qed.

Lemma str_le_trans a b c :
  str_le a b = true → str_le b c = true → str_le a c = true.
Proof.
  revert b c. induction a as [|x a IH]; intros [|y b] [|z c]; simpl; auto; try done.
  destruct (N.ltb_spec x y), (N.ltb_spec y z), (N.ltb_spec x z); auto; try lia;
    destruct (N.eqb_spec x y), (N.eqb_spec y z), (N.eqb_spec x z);
    auto; try lia; try done.
  apply IH.
Qed.

Lemma str_le_antisym a b :
  str_le a b = true → str_le b a = true → a = b.
Proof.
  revert b. induction a as [|x a IH]; intros [|y b]; simpl; auto; try done.
  destruct (N.ltb_spec x y), (N.ltb_spec y x); try lia; try done.
  - destruct (N.eqb_spec y x); [lia|done].
  - destruct (N.eqb_spec x y); [lia|done].
  - destruct (N.eqb_spec x y), (N.eqb_spec y x); try done.
    intros ??. f_equal; auto.
Qed.

#[global] Instance str_leq_total : Total str_leq.
Proof. intros a b. apply str_le_total. Qed.

#[global] Instance str_leq_trans : Transitive str_leq.
Proof. intros a b c. apply str_le_trans. Qed.

#[global] Instance str_leq_antisym : AntiSymm (=) str_leq.
Proof. intros a b. apply str_le_antisym. Qed.

(** [sorted] returns the same strings, in order. *)
Lemma sorted_perm xs : sorted xs ≡ₚ xs.
Proof. apply merge_sort_Permutation. Qed.

Lemma sorted_Sorted xs : Sorted str_leq (sorted xs).
Proof. apply (Sorted_merge_sort str_leq). Qed.

(** Without duplicates the order is strict, between any two positions. *)
Lemma sorted_strict xs : NoDup xs → StronglySorted str_lt (sorted xs).
Proof.
  intros Hnd.
  assert (NoDup (sorted xs)) as Hnd' by (by rewrite sorted_perm).
  assert (StronglySorted str_leq (sorted xs)) as Hs
    by (apply Sorted_StronglySorted; [apply _ | apply sorted_Sorted]).
  induction Hs as [|x l Hs IH Hall]; [constructor|].
  apply NoDup_cons in Hnd' as [Hx Hl].
  constructor; [by apply IH|].
  rewrite Forall_forall in Hall. apply Forall_forall.
  intros y Hy. split; [by apply Hall|]. intros ->. done.
Qed.

(** [split] and [join] are inverse, and no piece holds the separator. *)
Lemma split_not_nil sep s : split sep s ≠ [].
Proof.
  destruct s as [|c s]; simpl; [done|].
  destruct (c =? sep)%N; [done|]. by destruct (split sep s).
Qed.

Lemma join_split sep s : join [sep] (split sep s) = s.
Proof.
  induction s as [|c s IH]; simpl; [done|].
  destruct (N.eqb_spec c sep) as [->|Hne].
  - pose proof (split_not_nil sep s).
    simpl. destruct (split sep s) eqn:E; [done|]. simpl in *. by rewrite IH.
  - destruct (split sep s) as [|p ps] eqn:E; [by destruct (split_not_nil sep s)|].
    simpl in *. destruct ps; simpl in *; by rewrite <- IH.
Qed.

Lemma split_no_sep sep s p : p ∈ split sep s → contains sep p = false.
Proof.
  revert p. induction s as [|c s IH]; simpl; intros p Hp.
  - apply list_elem_of_singleton in Hp as ->. done.
  - destruct (N.eqb_spec c sep) as [->|Hne].
    + apply elem_of_cons in Hp as [->|Hp]; [done|by apply IH].
    + destruct (split sep s) as [|q qs] eqn:E.
      * apply list_elem_of_singleton in Hp as ->. simpl.
        destruct (N.eqb_spec sep c); [congruence|done].
      * apply elem_of_cons in Hp as [->|Hp].
        -- simpl. destruct (N.eqb_spec sep c); [congruence|].
           apply IH. left.
        -- apply IH. by right.
Qed.

(** The first piece is the text before the first separator. *)
Lemma split_hd sep s :
  contains sep s = true →
  ∃ rest, s = hd [] (split sep s) ++ sep :: rest.
Proof.
  induction s as [|c s IH]; simpl; [done|].
  destruct (N.eqb_spec sep c) as [->|Hne]; simpl.
  - intros _. rewrite N.eqb_refl. by exists s.
  - intros Hc. destruct (IH Hc) as [rest Hrest].
    destruct (N.eqb_spec c sep); [congruence|].
    destruct (split sep s) as [|q qs] eqn:E; [by destruct (split_not_nil sep s)|].
    simpl in *. exists rest. by rewrite Hrest at 1.
Qed.

(** [strip] removes white space, and only white space, from both ends. *)
Lemma lstrip_decompose s :
  ∃ l, s = l ++ lstrip s ∧ forallb isspace l = true.
Proof.
  induction s as [|c s [l [Hl Hsp]]]; simpl; [by exists []|].
  destruct (isspace c) eqn:E.
  - exists (c :: l). simpl. rewrite E, Hsp. split; [by f_equal|done].
  - by exists [].
Qed.

Lemma lstrip_hd s c rest : lstrip s = c :: rest → isspace c = false.
Proof.
  induction s as [|x s IH]; simpl; [done|].
  destruct (isspace x) eqn:E; [done|]. by intros [= <- _].
Qed.

Lemma strip_decompose s :
  ∃ l r, s = l ++ strip s ++ r
         ∧ forallb isspace l = true ∧ forallb isspace r = true.
Proof.
  destruct (lstrip_decompose s) as [l [Hl Hsp]].
  destruct (lstrip_decompose (rev (lstrip s))) as [r [Hr Hspr]].
  exists l, (rev r). split; [|split; [done|]].
  - unfold strip, rstrip. rewrite <- rev_app_distr, <- Hr, rev_involutive. done.
  - rewrite forallb_forall in *. intros x Hx. apply Hspr. by apply in_rev.
Qed.

Lemma strip_edges s :
  (∀ c rest, strip s = c :: rest → isspace c = false)
  ∧ (∀ c front, strip s = front ++ [c] → isspace c = false).
Proof.
  split.
  - unfold strip, rstrip. intros c rest H.
    destruct (lstrip_decompose (rev (lstrip s))) as [r [Hr Hspr]].
    assert (lstrip s = (c :: rest) ++ rev r) as Hs.
    { rewrite <- H, <- rev_app_distr, <- Hr, rev_involutive. done. }
    simpl in Hs. by eapply lstrip_hd.
  - unfold strip, rstrip. intros c front H.
    apply (f_equal (@rev N)) in H. rewrite rev_involutive, rev_unit in H.
    by eapply lstrip_hd.
Qed.


(** ** Field Extractor *)

Lemma elem_of_add_plan x acc unit :
  x ∈ add_plan acc unit ↔ x ∈ acc ∨ plan_of unit x.
Proof.
  unfold add_plan, plan_of.
  destruct (contains comma unit) eqn:Hc; rewrite ?andb_true_r, ?andb_false_r.
  - assert (unit ≠ []) as Hne by (by intros ->).
    rewrite bool_decide_false by done. simpl. case_bool_decide as Hp; simpl.
    + split; [auto|]. intros [?|(_ & -> & ?)]; done.
    + rewrite elem_of_union, elem_of_singleton. naive_solver.
  - naive_solver.
Qed.

Lemma elem_of_fold_add_plan x units acc :
  x ∈ fold_left add_plan units acc ↔
  x ∈ acc ∨ ∃ unit, unit ∈ units ∧ plan_of unit x.
Proof.
  revert acc. induction units as [|u units IH]; intros acc; simpl.
  - split; [auto|]. intros [?|(? & []%elem_of_nil & _)]. done.
  - rewrite IH, elem_of_add_plan. split.
    + intros [[?|?]|(u' & ? & ?)]; [auto|right; exists u|right; exists u'];
        split; auto; by constructor.
    + intros [?|(u' & [->|?]%elem_of_cons & ?)]; eauto.
Qed.

Lemma elem_of_collect_plans x s :
  x ∈ collect_plans s ↔ ∃ unit, unit ∈ split pipe s ∧ plan_of unit x.
Proof.
  unfold collect_plans. rewrite elem_of_fold_add_plan. set_solver.
Qed.

Lemma getfloorPlan_str s : getfloorPlan (PStr s) = join (lit ", ") (plan_labels s).
Proof.
  unfold getfloorPlan. simpl. case_bool_decide as He; simpl; [|done].
  subst s. vm_compute. reflexivity.
Qed.

(** C3, as stated, fails: an entry whose first comma-segment is blank is
    well-formed in the claim's sense, yet the code drops its empty label
    ([if plan_value:]) where the description would keep it. *)
Lemma getfloorPlan_blank_label_dropped :
  getfloorPlan (PStr (lit ",900sqft|2BHK,950sqft")) = lit "2BHK"
  ∧ normalizeFloorPlans (lit ",900sqft|2BHK,950sqft") = lit ", 2BHK".
Proof. split; [|split]; vm_compute; reflexivity. Qed.

(** C3 (amended): for every unit-info string [getfloorPlan] returns, joined
    by ", ", the strictly increasing (sorted, duplicate-free) list of the
    non-empty whitespace-trimmed first comma-segments of the entries that
    hold a comma; nothing else is in the list, so entries without a comma
    and blank labels are ignored; the empty string gives the empty string;
    the example of the specification evaluates as stated; and on a value
    that is not a string the result is the empty string, not an exception. *)
Theorem getfloorPlan_sorted_unique_labels :
  (∀ unit_info : str,
     ∃ labels : list str,
       getfloorPlan (PStr unit_info) = join (lit ", ") labels
       ∧ StronglySorted str_lt labels
       ∧ ∀ x, x ∈ labels ↔
           x ≠ [] ∧ ∃ unit, unit ∈ split pipe unit_info
                            ∧ contains comma unit = true
                            ∧ x = strip (hd [] (split comma unit)))
  ∧ getfloorPlan (PStr []) = []
  ∧ getfloorPlan (PStr (lit "2BHK,900sqft|3BHK,1200sqft|2BHK,950sqft")) = lit "2BHK, 3BHK"
  ∧ ∀ v, match v with PStr _ => True | _ => getfloorPlan v = [] end.
Proof.
  split; [|split; [done|split; [by vm_compute|]]].
  - intros s. exists (plan_labels s). split; [apply getfloorPlan_str|]. split.
    + apply sorted_strict, NoDup_elements.
    + intros x. unfold plan_labels. rewrite sorted_perm, elem_of_elements.
      rewrite elem_of_collect_plans. unfold plan_of. naive_solver.
  - intros []; try done; unfold getfloorPlan; by destruct (truthy _).
Qed.

(** ** Detail Fetcher *)

Lemma getRera_body_eq pdp_url st :
  getRera_body pdp_url st =
  let st' := with_env (sent_request (GetDetail pdp_url)) st in
  match next_response st (GetDetail pdp_url) with
  | GetRaises e => (Raise e, st')
  | GetInterrupted => (Interrupt, st')
  | GetReturns resp =>
      match raise_for_status resp with
      | Some e => (Raise e, st')
      | None => (Ret (extract_rera (content resp)), st')
      end
  end.
Proof.
  unfold getRera_body, session_get, check_status, bind, get, modify, ret, raise,
    interrupt. simpl.
  destruct (next_response st (GetDetail pdp_url)) as [e| |resp]; try done.
  by destruct (raise_for_status resp).
Qed.


Lemma probe_no_text sp selectors :
  (∀ selector text,
     selector ∈ selectors → select_one sp selector = Some text → text = []) →
  probe sp selectors [] = [].
Proof.
  induction selectors as [|sel rest IH]; intros H; simpl; [done|].
  destruct (select_one sp sel) as [text|] eqn:E.
  - rewrite (H sel text) by (by constructor || done). simpl.
    apply IH. intros ????. eapply H; [by right|done].
  - apply IH. intros ????. eapply H; [by right|done].
Qed.



(** C6: on the empty detail path [getRera] returns the empty string at
    once: the state it leaves is the state it found, so no request was
    sent and nothing was logged or slept. *)
Theorem getRera_empty_path (st : state) :
  getRera (PStr []) st = (Ret [], st)
  ∧ sent (env (getRera (PStr []) st).2) = sent (env st)
  ∧ trace (env (getRera (PStr []) st).2) = trace (env st).
Proof. done. Qed.






(** ** Page Harvester *)

Lemma dict_get_set d key v default :
  dict_get (dict_set d key v) key default = v.
Proof.
  induction d as [|[k x] d IH]; simpl.
  - by rewrite bool_decide_true.
  - case_bool_decide as Hk; simpl; [by rewrite bool_decide_true|].
    by rewrite bool_decide_false.
Qed.

Lemma dict_keys_set d key v :
  key ∈ dict_keys d → dict_keys (dict_set d key v) = dict_keys d.
Proof.
  induction d as [|[k x] d IH]; simpl; [by intros ?%elem_of_nil|].
  intros Hin. case_bool_decide as Hk; simpl; [done|].
  f_equal. apply IH. apply elem_of_cons in Hin as [?|?]; [congruence|done].
Qed.



Lemma py_contains_cases key data :
  py_contains key data = Ret true ∨ py_contains key data = Ret false
  ∨ py_contains key data = Raise TypeError.
Proof.
  destruct data; simpl; auto;
    match goal with |- context [Ret ?b] => destruct b; auto end.
Qed.

#[local] Arguments py_contains : simpl never.

Lemma scrape_single_page_never_raises page_no st e st' :
  scrape_single_page page_no st ≠ (Raise e, st').
Proof.
  unfold scrape_single_page, try_except.
  destruct (scrape_single_page_body page_no st) as [[r|e0|] st1]; try done.
  by destruct (is_RequestException e0), (is_JSONDecodeError e0).
Qed.

(** C7: when the listing request fails (the request or its status check
    raises, the body is not JSON) or the body has no records key,
    [scrape_single_page] returns no record and zero counters; the only
    effect is the request that was sent. *)
Theorem scrape_single_page_unavailable (page_no : Z) (st : state) :
  page_unavailable st page_no →
  scrape_single_page page_no st
  = (Ret ([], {| success := 0; failed := 0 |}),
     with_env (sent_request (GetListing page_no)) st).
Proof.
  assert (∀ e (st1 : state),
            (if is_RequestException e then ret (([] : list dict), zero_stats)
             else if is_JSONDecodeError e then ret ([], zero_stats)
             else ret ([], zero_stats)) st1
            = (Ret ([], zero_stats), st1))
    as Hh by (intros e ?; by destruct (is_RequestException e), (is_JSONDecodeError e)).
  unfold scrape_single_page, try_except, scrape_single_page_body, session_get,
    check_status, response_json, bind, get, modify, lift. simpl.
  intros [e [H|(resp & H & Hs)] | resp e [H Hs] Hj | resp data [H Hs] Hj Hk];
    rewrite H; simpl; rewrite ?Hs; simpl; rewrite ?Hj; simpl; try apply Hh.
  destruct (py_contains_cases (lit "projectsCards") data) as [Hc|[Hc|Hc]];
    rewrite Hc in *; simpl; done.
Qed.

Lemma scrape_single_page_unavailable_witness :
  scrape_single_page 7 (state_of (λ _ _, body (PDict [(lit "total", PInt 0)])))
  = (Ret ([], {| success := 0; failed := 0 |}),
     with_env (sent_request (GetListing 7))
       (state_of (λ _ _, body (PDict [(lit "total", PInt 0)])))).
Proof.
  apply scrape_single_page_unavailable.
  eapply no_records_key; [split; reflexivity | reflexivity | discriminate].
Defined.

(** ** Persistence Sink *)

(** C1, as stated, fails: on an empty batch the result is [False], not
    [True], in both modes. *)
Lemma write_to_csv_empty_not_true :
  (write_to_csv [] A (state_of (λ _ _, GetRaises Timeout))).1 ≠ Ret true
  ∧ (write_to_csv [] W (state_of (λ _ _, GetRaises Timeout))).1 ≠ Ret true.
Proof. split; discriminate. Qed.

(** C1 (amended): on an empty batch [write_to_csv] returns [False] in
    either mode and does nothing: the state, with its files and its trace,
    is the one it was called in. *)
Theorem write_to_csv_empty (m : mode) (st : state) :
  write_to_csv [] m st = (Ret false, st).
Proof. reflexivity. Qed.

Lemma open_eq path m st :
  open_ path m st =
  let st0 := with_env (log (EvOpen path m)) st in
  if bool_decide (path ∈ dirs (env st)) then (Raise OtherError, st0)
  else if negb (parent_exists (env st) path) then (Raise FileNotFoundError, st0)
  else match m, files (env st) !! path with
       | A, Some _ => (Ret tt, st0)
       | _, _ => (Ret tt, with_env (set_files (<[path := []]> (files (env st)))) st0)
       end.
Proof.
  unfold open_, bind, modify, get. cbv zeta beta iota.
  change (dirs (env (with_env (log (EvOpen path m)) st))) with (dirs (env st)).
  change (parent_exists (env (with_env (log (EvOpen path m)) st)) path)
    with (parent_exists (env st) path).
  change (files (env (with_env (log (EvOpen path m)) st))) with (files (env st)).
  destruct (bool_decide _); [done|]. destruct (negb _); [done|].
  destruct m; [done|]. by destruct (files (env st) !! path).
Qed.

(** One row: written when the record has no unknown key and its row can
    be encoded; otherwise [writerow] raises and the file is as it was. *)
Lemma writerow_eq path d st :
  writerow path fieldnames d st
  = if valid_record d
    then (Ret tt,
          with_env (λ w, append_line path (Row (row_of d))
                           (log (EvWriteRow path (row_of d)) w)) st)
    else (Raise (if forallb (λ k, bool_decide (k ∈ fieldnames)) (dict_keys d)
                 then UnicodeEncodeError else ValueError), st).
Proof.
  unfold writerow, bind, lift, dict_to_list, valid_record, encodable_row, row_of.
  destruct (forallb (λ k, bool_decide (k ∈ fieldnames)) (dict_keys d));
    cbv beta iota; [|reflexivity].
  destruct (forallb cell_encodable _); reflexivity.
Qed.

Lemma for_each_writerow_eq path projects st :
  ∃ e,
    for_each projects (writerow path fieldnames) st
    = (if forallb valid_record projects then Ret tt else Raise e,
       with_env (rows_written path (valid_prefix projects)) st).
Proof.
  revert st. induction projects as [|d projects IH]; intros st; simpl.
  - exists ValueError. by destruct st.
  - unfold bind at 1. rewrite writerow_eq. destruct (valid_record d); simpl.
    + match goal with |- context [for_each projects _ ?s] =>
        destruct (IH s) as [e ->] end.
      exists e. by destruct st.
    + eexists. by destruct st.
Qed.

Lemma writeheader_eq path st :
  writeheader path fieldnames st
  = (Ret tt, with_env (λ w, append_line path (Row header_row)
                              (log (EvWriteHeader path header_row) w)) st).
Proof. done. Qed.

Lemma open_eq_b path m st :
  open_ path m st
  = if can_open_b (env st) path
    then (Ret tt, with_env (opened_for path m) st)
    else (Raise (if bool_decide (path ∈ dirs (env st))
                 then OtherError else FileNotFoundError),
          with_env (log (EvOpen path m)) st).
Proof.
  rewrite open_eq. cbv zeta. unfold can_open_b, opened_for.
  destruct (bool_decide (path ∈ dirs (env st))); simpl; [done|].
  destruct (parent_exists (env st) path); simpl; [|done].
  destruct m; simpl; [reflexivity|].
  destruct (files (env st) !! path) eqn:E; unfold with_env; simpl; by rewrite E.
Qed.

(** What [write_to_csv] does on a batch that is not empty. *)
Lemma write_to_csv_eq projects m st :
  projects ≠ [] →
  write_to_csv projects m st
  = if can_open_b (env st) (csv_filename (self st))
    then (Ret (forallb valid_record projects),
          with_env (λ w, rows_written (csv_filename (self st)) (valid_prefix projects)
                           (header_written (csv_filename (self st)) m
                              (opened_for (csv_filename (self st)) m w))) st)
    else (Ret false, with_env (log (EvOpen (csv_filename (self st)) m)) st).
Proof.
  intros Hne. unfold write_to_csv. rewrite bool_decide_false by done.
  unfold try_except, bind at 1, get. unfold bind at 1. rewrite open_eq_b.
  destruct (can_open_b (env st) (csv_filename (self st))); [|done].
  unfold bind at 1, tell at 1, bind at 1, get, ret at 1.
  unfold bind at 1.
  set (st1 := with_env (opened_for (csv_filename (self st)) m) st).
  assert ((Z.of_nat (length (default [] (files (env st1) !! csv_filename (self st)))) =? 0)
          = bool_decide (lines_at (env st1) (csv_filename (self st)) = [])) as ->
    by (unfold lines_at; by destruct (default [] _)).
  destruct (bool_decide (m = W) || bool_decide (lines_at _ _ = [])) eqn:Hh.
  - assert (header_written (csv_filename (self st)) m (env st1)
            = append_line (csv_filename (self st)) (Row header_row)
                (log (EvWriteHeader (csv_filename (self st)) header_row) (env st1)))
      as Hhw by (unfold header_written; by rewrite Hh).
    rewrite writeheader_eq. unfold bind at 1.
    match goal with |- context [for_each projects _ ?s] =>
      destruct (for_each_writerow_eq (csv_filename (self st)) projects s) as [e ->] end.
    subst st1. unfold with_env in *. cbn [self env] in *. rewrite Hhw.
    by destruct (forallb valid_record projects).
  - assert (header_written (csv_filename (self st)) m (env st1) = env st1)
      as Hhw by (unfold header_written; by rewrite Hh).
    unfold ret at 1. unfold bind at 1.
    match goal with |- context [for_each projects _ ?s] =>
      destruct (for_each_writerow_eq (csv_filename (self st)) projects s) as [e ->] end.
    subst st1. unfold with_env in *. cbn [self env] in *. rewrite Hhw.
    by destruct (forallb valid_record projects).
Qed.

Lemma valid_record_known d :
  valid_record d = true ↔ known_keys d ∧ encodable_row d = true.
Proof.
  unfold valid_record, known_keys. rewrite andb_true_iff, forallb_forall.
  split; intros [H He]; (split; [|done]); intros k Hk.
  - apply list_elem_of_In in Hk. apply H in Hk. by apply bool_decide_eq_true in Hk.
  - apply bool_decide_eq_true, H. by apply list_elem_of_In.
Qed.

Lemma forallb_valid_known projects :
  forallb valid_record projects = true
  ↔ Forall (λ d, known_keys d ∧ encodable_row d = true) projects.
Proof.
  rewrite forallb_forall, Forall_forall. split; intros H d Hd.
  - apply valid_record_known, H. by apply list_elem_of_In.
  - apply valid_record_known, H. by apply list_elem_of_In.
Qed.

Lemma valid_prefix_all projects :
  Forall (λ d, known_keys d ∧ encodable_row d = true) projects →
  valid_prefix projects = projects.
Proof.
  induction 1 as [|d projects Hd _ IH]; simpl; [done|].
  apply valid_record_known in Hd. by rewrite Hd, IH.
Qed.

Lemma valid_prefix_until good bad rest :
  Forall (λ d, known_keys d ∧ encodable_row d = true) good →
  ¬ (known_keys bad ∧ encodable_row bad = true) →
  valid_prefix (good ++ bad :: rest) = good
  ∧ forallb valid_record (good ++ bad :: rest) = false.
Proof.
  intros Hgood Hbad.
  assert (valid_record bad = false) as Hb.
  { destruct (valid_record bad) eqn:E; [|done]. by apply valid_record_known in E. }
  induction Hgood as [|d good Hd _ [IH1 IH2]]; simpl.
  - by rewrite Hb.
  - apply valid_record_known in Hd. by rewrite Hd, IH1, IH2.
Qed.

(** For listing records only the encoding decides. *)
Lemma valid_record_listing d :
  dict_keys d = fieldnames → valid_record d = encodable_row d.
Proof.
  intros Hk. unfold valid_record. rewrite Hk.
  replace (forallb _ fieldnames) with true by (by vm_compute). done.
Qed.

Lemma valid_prefix_listing projects :
  Forall (λ d, dict_keys d = fieldnames) projects →
  valid_prefix projects = encodable_prefix projects
  ∧ forallb valid_record projects = forallb encodable_row projects.
Proof.
  induction 1 as [|d projects Hd _ [IH1 IH2]]; simpl; [done|].
  rewrite (valid_record_listing d Hd), IH1, IH2. done.
Qed.

Lemma can_open_b_true st path : can_open_b (env st) path = true ↔ can_open st path.
Proof.
  unfold can_open_b, can_open.
  rewrite andb_true_iff, negb_true_iff, bool_decide_eq_false. done.
Qed.

(** The parts of the world a flush leaves alone, and what it adds. *)
Lemma rows_written_spec path ds w :
  net (rows_written path ds w) = net w
  ∧ sent (rows_written path ds w) = sent w
  ∧ clock (rows_written path ds w) = clock w
  ∧ dirs (rows_written path ds w) = dirs w
  ∧ trace (rows_written path ds w)
    = trace w ++ map (λ d, EvWriteRow path (row_of d)) ds
  ∧ lines_at (rows_written path ds w) path
    = lines_at w path ++ map (λ d, Row (row_of d)) ds
  ∧ ∀ p, p ≠ path → files (rows_written path ds w) !! p = files w !! p.
Proof.
  revert w. induction ds as [|d ds IH]; intros w; simpl.
  - rewrite !app_nil_r. done.
  - destruct (IH (append_line path (Row (row_of d)) (log (EvWriteRow path (row_of d)) w)))
      as (Hn & Hs & Hc & Hd & Ht & Hl & Hf).
    unfold rows_written in *.
    rewrite Hn, Hs, Hc, Hd, Ht, Hl. simpl.
    split; [done|]. split; [done|]. split; [done|]. split; [done|].
    split; [by rewrite <- app_assoc|]. split.
    + unfold lines_at. simpl. rewrite lookup_insert_eq. simpl.
      by rewrite <- app_assoc.
    + intros p Hp. rewrite Hf by done. simpl. by rewrite lookup_insert_ne.
Qed.

Lemma header_written_spec path m w :
  net (header_written path m w) = net w
  ∧ sent (header_written path m w) = sent w
  ∧ clock (header_written path m w) = clock w
  ∧ dirs (header_written path m w) = dirs w
  ∧ trace (header_written path m w)
    = trace w ++ (if bool_decide (m = W) || bool_decide (lines_at w path = [])
                  then [EvWriteHeader path header_row] else [])
  ∧ lines_at (header_written path m w) path
    = lines_at w path ++ header_lines m (lines_at w path)
  ∧ ∀ p, p ≠ path → files (header_written path m w) !! p = files w !! p.
Proof.
  unfold header_written, header_lines.
  destruct (bool_decide (m = W) || bool_decide (lines_at w path = [])); simpl.
  - repeat (split; [done|]). split.
    + unfold lines_at. simpl. by rewrite lookup_insert_eq.
    + intros p Hp. by rewrite lookup_insert_ne.
  - rewrite !app_nil_r. done.
Qed.

Lemma opened_for_spec path m w :
  net (opened_for path m w) = net w
  ∧ sent (opened_for path m w) = sent w
  ∧ clock (opened_for path m w) = clock w
  ∧ dirs (opened_for path m w) = dirs w
  ∧ trace (opened_for path m w) = trace w ++ [EvOpen path m]
  ∧ lines_at (opened_for path m w) path = kept_lines m (lines_at w path)
  ∧ ∀ p, p ≠ path → files (opened_for path m w) !! p = files w !! p.
Proof.
  unfold opened_for, kept_lines, lines_at.
  destruct m; simpl.
  - repeat (split; [done|]). split; [by rewrite lookup_insert_eq|].
    intros p Hp. by rewrite lookup_insert_ne.
  - destruct (files w !! path) eqn:E; simpl.
    + rewrite E. done.
    + repeat (split; [done|]). split; [by rewrite lookup_insert_eq|].
      intros p Hp. by rewrite lookup_insert_ne.
Qed.

(** A flush that opens the file: everything it changes. *)
Lemma flushed_spec path m ds w :
  let w' := rows_written path ds (header_written path m (opened_for path m w)) in
  net w' = net w ∧ sent w' = sent w ∧ clock w' = clock w ∧ dirs w' = dirs w
  ∧ lines_at w' path
    = kept_lines m (lines_at w path)
        ++ header_lines m (lines_at w path) ++ map (λ d, Row (row_of d)) ds
  ∧ ∀ p, p ≠ path → files w' !! p = files w !! p.
Proof.
  cbv zeta.
  destruct (rows_written_spec path ds (header_written path m (opened_for path m w)))
    as (Hn & Hs & Hc & Hd & _ & Hl & Hf).
  destruct (header_written_spec path m (opened_for path m w))
    as (Hn' & Hs' & Hc' & Hd' & _ & Hl' & Hf').
  destruct (opened_for_spec path m w) as (Hn'' & Hs'' & Hc'' & Hd'' & _ & Hl'' & Hf'').
  rewrite Hn, Hs, Hc, Hd, Hn', Hs', Hc', Hd', Hl, Hl', Hl''.
  repeat (split; [done|]). split.
  - rewrite <- app_assoc. f_equal. f_equal.
    unfold header_lines, kept_lines. repeat case_bool_decide; simpl; try done.
  - intros p Hp. by rewrite Hf, Hf', Hf''.
Qed.

Lemma flushed_trace path m ds w :
  trace (rows_written path ds (header_written path m (opened_for path m w)))
  = trace w ++ EvOpen path m
      :: (if bool_decide (m = W) || bool_decide (lines_at w path = [])
          then [EvWriteHeader path header_row] else [])
      ++ map (λ d, EvWriteRow path (row_of d)) ds.
Proof.
  destruct (rows_written_spec path ds (header_written path m (opened_for path m w)))
    as (_ & _ & _ & _ & Ht & _).
  destruct (header_written_spec path m (opened_for path m w))
    as (_ & _ & _ & _ & Ht' & _).
  destruct (opened_for_spec path m w) as (_ & _ & _ & _ & Ht'' & Hl'' & _).
  rewrite Ht, Ht', Ht'', Hl''. rewrite <- !app_assoc. simpl. f_equal. f_equal. f_equal.
  unfold kept_lines. repeat case_bool_decide; simpl; try done.
Qed.

Lemma encodable_prefix_prefix projects :
  ∃ rest, projects = encodable_prefix projects ++ rest.
Proof.
  induction projects as [|d projects [rest IH]]; simpl; [by exists []|].
  destruct (encodable_row d); simpl.
  - exists rest. by rewrite <- IH.
  - by eexists.
Qed.

Lemma row_of_aligned d i key :
  fieldnames !! i = Some key →
  header_row !! i = Some (PStr key)
  ∧ row_of d !! i = Some (dict_get d key (PStr [])).
Proof.
  intros Hi. unfold header_row, row_of. rewrite !list_lookup_fmap, Hi. done.
Qed.

Lemma record_field_order (d : dict) i key :
  dict_keys d = fieldnames → fieldnames !! i = Some key →
  ∃ v, d !! i = Some (key, v).
Proof.
  intros Hk Hi. rewrite <- Hk in Hi. unfold dict_keys in Hi.
  rewrite list_lookup_fmap in Hi.
  destruct (d !! i) as [[k v]|]; [|done]. injection Hi as ->. by exists v.
Qed.

(** C9: a batch of listing records (dicts with exactly the eight field
    names in order) written to a file that can be opened.  [write_to_csv]
    opens the file in the given mode and writes the header row exactly when
    the mode is ['w'] or the file is empty; then it writes one row per
    record, in order, and nothing else, up to the first record with a cell
    the utf-8 file cannot encode (a lone surrogate), where it stops; it
    returns [True] when it met no such record and [False] when it did.
    Each row written has the eight cells of the header row, the cell at a
    position being the record's value for the field the header names there,
    which is also the record's own field at that position. *)
Theorem write_to_csv_rows_follow_header
    (projects : list dict) (m : mode) (st : state) :
  projects ≠ [] →
  Forall (λ d, dict_keys d = fieldnames) projects →
  can_open st (csv_filename (self st)) →
  ∃ st' header,
    write_to_csv projects m st = (Ret (forallb encodable_row projects), st')
    ∧ trace (env st')
      = trace (env st) ++ EvOpen (csv_filename (self st)) m
          :: map (EvWriteHeader (csv_filename (self st))) header
          ++ map (λ d, EvWriteRow (csv_filename (self st)) (row_of d))
               (encodable_prefix projects)
    ∧ file_lines st' (csv_filename (self st))
      = (if bool_decide (m = W) then [] else file_lines st (csv_filename (self st)))
          ++ map Row header
          ++ map (λ d, Row (row_of d)) (encodable_prefix projects)
    ∧ (∃ rest, projects = encodable_prefix projects ++ rest)
    ∧ (header = [header_row] ∨ header = [])
    ∧ (header = [header_row]
       ↔ m = W ∨ file_lines st (csv_filename (self st)) = [])
    ∧ header_row
      = [PStr (lit "Name"); PStr (lit "Developer Name"); PStr (lit "Price Range");
         PStr (lit "No of units"); PStr (lit "Brochure"); PStr (lit "Total Acres");
         PStr (lit "Floor Plan"); PStr (lit "RERA Number")]
    ∧ ∀ d, d ∈ projects →
        length (row_of d) = 8%nat
        ∧ ∀ i key, fieldnames !! i = Some key →
            header_row !! i = Some (PStr key)
            ∧ row_of d !! i = Some (dict_get d key (PStr []))
            ∧ ∃ v, d !! i = Some (key, v).
Proof.
  intros Hne Hall Hopen. apply can_open_b_true in Hopen.
  destruct (valid_prefix_listing projects Hall) as [Hp Hf].
  set (csv := csv_filename (self st)) in *.
  set (header := if bool_decide (m = W) || bool_decide (file_lines st csv = [])
                 then [header_row] else []).
  exists (write_to_csv projects m st).2, header.
  rewrite write_to_csv_eq by done. fold csv. rewrite Hopen, Hp, Hf. cbn [snd].
  split; [done|]. split; [|split; [|split; [|split; [|split; [|split]]]]].
  - cbn [env with_env]. rewrite flushed_trace. unfold header, file_lines, lines_at.
    by destruct (_ || _).
  - destruct (flushed_spec csv m (encodable_prefix projects) (env st))
      as (_ & _ & _ & _ & Hl & _).
    unfold file_lines. cbn [env with_env]. unfold lines_at in Hl. rewrite Hl.
    unfold kept_lines, header_lines, header, file_lines.
    by destruct (_ || _).
  - apply encodable_prefix_prefix.
  - unfold header. destruct (_ || _); auto.
  - unfold header. repeat case_bool_decide; simpl; naive_solver.
  - by vm_compute.
  - intros d Hd. rewrite Forall_forall in Hall. split; [done|].
    intros i key Hi. destruct (row_of_aligned d i key Hi) as [? ?].
    split; [done|]. split; [done|]. eapply record_field_order; eauto.
Qed.

Lemma write_to_csv_rows_follow_header_witness :
  ∃ st' header,
    write_to_csv [listing_record "Green Acres" "2BHK" "P52100001"] A
      (fresh_state (λ _ _, GetRaises Timeout))
    = (Ret true, st')
    ∧ header = [header_row]
    ∧ file_lines st' (lit "output/magicbricks_projects.csv")
      = map Row header
        ++ [Row (row_of (listing_record "Green Acres" "2BHK" "P52100001"))].
Proof.
  destruct (write_to_csv_rows_follow_header
              [listing_record "Green Acres" "2BHK" "P52100001"] A
              (fresh_state (λ _ _, GetRaises Timeout)))
    as (st' & header & Hrun & _ & Hfile & _ & _ & Hheader & _).
  - discriminate.
  - repeat constructor.
  - split; [|reflexivity].
    intros Hin. apply (bool_decide_pack _) in Hin. vm_compute in Hin. exact Hin.
  - exists st', header. split; [exact Hrun|]. split.
    + apply Hheader. right. reflexivity.
    + exact Hfile.
Defined.

(** The records the harvester appends are listing records: exactly the
    eight field names, in order. *)
Lemma harvest_project_shape project l st :
  Forall (λ d, dict_keys d = fieldnames) (projects l) →
  Forall (λ d, dict_keys d = fieldnames)
    (projects (harvest_project project (l, st)).2.1).
Proof.
  intros Hl.
  unfold harvest_project, try_except, process_project, bind, lift, zoom.
  destruct project as [| | | | | |d]; simpl; try done.
  destruct (truthy (dict_get d (lit "pdpUrl") (PStr []))); simpl.
  - destruct (getRera _ st) as [[rera|e|] st1]; simpl; try done.
    destruct (rera_found rera); simpl; apply Forall_app; (split; [done|]);
      by repeat constructor.
  - apply Forall_app. split; [done|]. by repeat constructor.
Qed.

Lemma for_each_harvest_shape items l st :
  Forall (λ d, dict_keys d = fieldnames) (projects l) →
  Forall (λ d, dict_keys d = fieldnames)
    (projects (for_each items harvest_project (l, st)).2.1).
Proof.
  revert l st. induction items as [|project items IH]; intros l st Hl; simpl; [done|].
  unfold bind.
  pose proof (harvest_project_shape project l st Hl) as Hstep.
  destruct (harvest_project project (l, st)) as [[[]|e|] [l1 st1]]; simpl in *;
    [by apply IH|done|done].
Qed.

Lemma handler_returns_nothing e (st : state) :
  (if is_RequestException e then ret (([] : list dict), zero_stats)
   else if is_JSONDecodeError e then ret ([], zero_stats)
   else ret ([], zero_stats)) st
  = (Ret ([], zero_stats), st).
Proof. by destruct (is_RequestException e), (is_JSONDecodeError e). Qed.

Lemma in_frame_for_each_shape items (st : state) r st' :
  in_frame {| projects := []; rera_stats := zero_stats |}
    (for_each items harvest_project) st = (Ret r, st') →
  Forall (λ d, dict_keys d = fieldnames) (projects r.2).
Proof.
  unfold in_frame. intros H.
  pose proof (for_each_harvest_shape items
                {| projects := []; rera_stats := zero_stats |} st) as Hs.
  destruct (for_each items harvest_project _) as [[[]|e|] [l1 st1]];
    simplify_eq/=. by apply Hs.
Qed.

Lemma scrape_single_page_shape page_no st r st' :
  scrape_single_page page_no st = (Ret r, st') →
  Forall (λ d, dict_keys d = fieldnames) r.1.
Proof.
  unfold scrape_single_page, try_except.
  destruct (scrape_single_page_body page_no st) as [[r0|e|] st0] eqn:Hbody.
  - intros [= -> ->]. revert Hbody.
    unfold scrape_single_page_body, bind, lift, ret.
    repeat match goal with
           | |- context [match ?x with _ => _ end] =>
               lazymatch x with
               | in_frame _ _ _ => fail
               | _ => destruct x eqn:?; try done
               end
           end;
      try (intros [= <- _]; by constructor).
    all: destruct (in_frame _ _ _) as [[rr|?|] ?] eqn:Hf; try done;
      intros [= <- _]; simpl; by eapply in_frame_for_each_shape.
  - rewrite handler_returns_nothing. intros [= <- _]. constructor.
  - done.
Qed.

(** ** Run Controller *)

Section page_loop_invariants.

Variables start_page end_page batch_size : Z.

(** A property of the locals that adding statistics, extending both lists
    by a harvested page and clearing the batch all keep. *)
Variable keeps : run_locals → Prop.
Hypothesis keeps_add_stats : ∀ l s, keeps l → keeps (add_stats s l).
Hypothesis keeps_extend :
  ∀ l page_no st r st',
    scrape_single_page page_no st = (Ret r, st') →
    keeps l → keeps (extend r.1 l).
Hypothesis keeps_clear_batch : ∀ l, keeps l → keeps (clear_batch l).

Lemma page_body_keeps page_no l st :
  keeps l → keeps (page_body start_page end_page batch_size page_no (l, st)).2.1.
Proof.
  intros Hl.
  unfold page_body, bind, zoom, locally, locals. simpl.
  destruct (scrape_single_page page_no st)
    as [[[page_projects page_stats]|e|] st1] eqn:Hpage; simpl; [|done..].
  assert (keeps (add_stats page_stats l)) as Hadd by auto.
  assert (keeps (extend page_projects (add_stats page_stats l))) as Hext
    by (by apply (keeps_extend _ _ _ _ _ Hpage)).
  destruct (bool_decide (page_projects = [])); simpl.
  - destruct (page_no <? end_page); simpl; done.
  - destruct (batch_size <=? _); simpl.
    + destruct (write_to_csv _ _ st1) as [[b|e|] st2]; simpl; try done.
      destruct (page_no <? end_page); simpl; auto.
    + destruct (page_no <? end_page); simpl; done.
Qed.

Lemma page_loop_keeps pages l st :
  keeps l → keeps (page_loop start_page end_page batch_size pages (l, st)).2.1.
Proof.
  revert l st. induction pages as [|page_no pages IH]; intros l st Hl; simpl; [done|].
  pose proof (page_body_keeps page_no l st Hl) as Hstep.
  destruct (page_body start_page end_page batch_size page_no (l, st))
    as [[[]|e|] [l1 st1]]; simpl in *; [by apply IH| |done].
  unfold bind, zoom, modify. simpl. by apply IH.
Qed.

End page_loop_invariants.

Lemma page_loop_keeps_batch_within_corpus start_page end_page batch_size pages l st :
  batch_within_corpus l →
  batch_within_corpus (page_loop start_page end_page batch_size pages (l, st)).2.1.
Proof.
  apply page_loop_keeps.
  - intros l0 s [flushed H]. by exists flushed.
  - intros l0 _ _ r _ _ [flushed H]. exists flushed. simpl. by rewrite H, app_assoc.
  - intros l0 _. eexists. simpl. by rewrite app_nil_r.
Qed.

(** Every record of the corpus and of the batch is a listing record, so
    [write_to_csv] is only ever handed listing records. *)
Lemma page_loop_keeps_listing_records start_page end_page batch_size pages l st :
  Forall (λ d, dict_keys d = fieldnames) (all_projects l ++ current_batch l) →
  let l' := (page_loop start_page end_page batch_size pages (l, st)).2.1 in
  Forall (λ d, dict_keys d = fieldnames) (all_projects l' ++ current_batch l').
Proof.
  apply (page_loop_keeps start_page end_page batch_size
           (λ l, Forall (λ d, dict_keys d = fieldnames)
                   (all_projects l ++ current_batch l))).
  - done.
  - intros l0 page_no st0 r st' Hpage Hl0. simpl.
    apply scrape_single_page_shape in Hpage.
    rewrite !Forall_app in *. naive_solver.
  - intros l0 Hl0. simpl. rewrite !Forall_app in *. naive_solver.
Qed.

(** Whatever the pages returned, a batch left over when the loop ends is
    flushed in append mode: the ['w'] branch of the finalization cannot be
    taken, also when nothing was flushed before. *)
Lemma finalization_appends start_page end_page batch_size pages st l :
  l = (page_loop start_page end_page batch_size pages
         ({| all_projects := []; current_batch := [];
             total_rera_stats := zero_stats |}, st)).2.1 →
  current_batch l ≠ [] → final_mode l = A.
Proof.
  intros -> Hne. unfold final_mode.
  destruct (page_loop_keeps_batch_within_corpus start_page end_page batch_size pages
              {| all_projects := []; current_batch := [];
                 total_rera_stats := zero_stats |} st) as [flushed Hl];
    [by exists []|].
  rewrite bool_decide_false; [done|].
  rewrite Hl. intros [_ ?]%app_eq_nil. done.
Qed.

(** A threshold flush can be in write mode on the start page only. *)
Lemma batch_mode_write page_no start_page batch_size l :
  batch_mode page_no start_page batch_size l = W →
  page_no = start_page ∧ len (all_projects l) ≤ batch_size.
Proof.
  unfold batch_mode.
  destruct (Z.eqb_spec page_no start_page), (Z.leb_spec (len (all_projects l)) batch_size);
    simpl; done.
Qed.

(** C2 fails on the code.  A run over two pages with batch size 20, page 1
    giving three records and page 2 none, flushes once, at finalization:
    that first flush of the run opens the CSV file in append mode.  So
    does the first flush when it is a threshold flush on the second page
    (batch size 4, three records on each page). *)
Theorem first_flush_opens_in_append_mode :
  open_modes (lit "output/magicbricks_projects.csv")
    (trace (env (scrape_multiple_pages 1 2 20
                   (fresh_state (two_pages three_records []))).2))
  = [A]
  ∧ length (file_lines (scrape_multiple_pages 1 2 20
                          (fresh_state (two_pages three_records []))).2
              (lit "output/magicbricks_projects.csv")) = 4%nat
  ∧ open_modes (lit "output/magicbricks_projects.csv")
      (trace (env (scrape_multiple_pages 1 2 4
                     (fresh_state (two_pages three_records three_records))).2))
    = [A].
Proof. split; [|split]; vm_compute; reflexivity. Qed.

Lemma os_rename_no_directory src dst c st :
  files (env st) !! src = Some c →
  parent_exists (env st) dst = false →
  os_rename src dst st
  = (Raise FileNotFoundError, with_env (log (EvRename src dst)) st).
Proof.
  intros Hsrc Hpar. unfold os_rename, bind, modify, get. cbv beta iota zeta.
  change (files (env (with_env (log (EvRename src dst)) st))) with (files (env st)).
  change (parent_exists (env (with_env (log (EvRename src dst)) st)) dst)
    with (parent_exists (env st) dst).
  by rewrite Hsrc, Hpar.
Qed.

(** When the directory part of the backup name does not exist, the rename
    raises, nothing is renamed and the run ends there: no page is asked for. *)
Lemma backup_rename_aborts_run end_page batch_size st c :
  files (env st) !! csv_filename (self st) = Some c →
  parent_exists (env st)
    (backup_name_of (clock (env st)) (csv_filename (self st))) = false →
  scrape_multiple_pages 1 end_page batch_size st
  = (Raise FileNotFoundError,
     with_env (log (EvRename (csv_filename (self st))
                      (backup_name_of (clock (env st)) (csv_filename (self st)))))
       st).
Proof.
  intros Hcsv Hpar.
  unfold scrape_multiple_pages, bind at 1, in_frame, scrape_multiple_pages_body.
  unfold bind at 1, zoom at 1, get at 1. cbn [fst snd].
  unfold bind at 1, zoom at 1, os_path_exists, bind at 1, get at 1, ret at 1.
  cbn [fst snd]. rewrite Hcsv.
  rewrite (bool_decide_true (is_Some (Some c))) by (by eexists).
  cbn [orb andb Z.eqb Pos.eqb].
  unfold bind at 1, bind at 1, zoom at 1, get at 1. cbn [fst snd].
  unfold zoom at 1. cbn [fst snd].
  by rewrite (os_rename_no_directory _ _ c st Hcsv Hpar).
Qed.

(** C8 fails on the code.  A second run of the default scraper from page 1
    finds the CSV file of the first; the backup name is the whole path
    behind the prefix, "backup_1700000000_output/magicbricks_projects.csv",
    in a directory that does not exist, so [os.rename] raises
    [FileNotFoundError], which leaves [scrape_multiple_pages]: the old file
    is still in place under its old name, and no request was sent. *)
Theorem rerun_backup_rename_raises (answers : nat → request → get_result) :
  backup_name_of 1700000000 (lit "output/magicbricks_projects.csv")
  = lit "backup_1700000000_output/magicbricks_projects.csv"
  ∧ (scrape_multiple_pages 1 104 20 (rerun_state answers)).1
    = Raise FileNotFoundError
  ∧ files (env (scrape_multiple_pages 1 104 20 (rerun_state answers)).2)
    = files (env (rerun_state answers))
  ∧ trace (env (scrape_multiple_pages 1 104 20 (rerun_state answers)).2)
    = [EvMakedirs (lit "output");
       EvRename (lit "output/magicbricks_projects.csv")
         (lit "backup_1700000000_output/magicbricks_projects.csv")].
Proof.
  split; [by vm_compute|].
  rewrite (backup_rename_aborts_run 104 20 (rerun_state answers) [Row header_row]);
    [|by vm_compute..].
  split; [done|]. split; [done|]. by vm_compute.
Qed.

(** * Further properties *)

(** ** Field Extractor: order and repetition of the entries *)

(** The result of [getfloorPlan] depends only on which entries occur in
    the unit info, not on their order or on how often each occurs. *)
Theorem getfloorPlan_entries_as_set (s1 s2 : str) :
  (∀ unit, unit ∈ split pipe s1 ↔ unit ∈ split pipe s2) →
  getfloorPlan (PStr s1) = getfloorPlan (PStr s2).
Proof.
  intros Hsame. rewrite !getfloorPlan_str. f_equal. unfold plan_labels.
  f_equal. f_equal. apply set_eq. intros x.
  rewrite !elem_of_collect_plans. naive_solver.
Qed.

Lemma getfloorPlan_entries_as_set_witness :
  getfloorPlan (PStr (lit "3BHK,1200|2BHK,900|3BHK,1200"))
  = getfloorPlan (PStr (lit "2BHK,900|3BHK,1200")).
Proof.
  apply getfloorPlan_entries_as_set. intros unit.
  change (split pipe (lit "3BHK,1200|2BHK,900|3BHK,1200"))
    with [lit "3BHK,1200"; lit "2BHK,900"; lit "3BHK,1200"].
  change (split pipe (lit "2BHK,900|3BHK,1200"))
    with [lit "2BHK,900"; lit "3BHK,1200"].
  rewrite !elem_of_cons, elem_of_nil. tauto.
Defined.

(** ** Detail Fetcher: one request, ordered strategies *)

Lemma nonempty_true s : s ≠ [] → nonempty s = true.
Proof. intros H. unfold nonempty. by rewrite bool_decide_false. Qed.

Lemma probe_skip sp before rest :
  (∀ selector text,
     selector ∈ before → select_one sp selector = Some text → text = []) →
  probe sp (before ++ rest) [] = probe sp rest [].
Proof.
  induction before as [|sel before IH]; intros H; simpl; [done|].
  destruct (select_one sp sel) as [text|] eqn:E.
  - rewrite (H sel text) by (by constructor || done). simpl.
    apply IH. intros ????. eapply H; [by right|done].
  - apply IH. intros ????. eapply H; [by right|done].
Qed.

Lemma scan_skip skipped rest rera_text :
  (∀ element, element ∈ skipped →
     is_infix (lit "rera") (parent_text_lower element) = false) →
  scan (skipped ++ rest) rera_text = scan rest rera_text.
Proof.
  induction skipped as [|n skipped IH]; intros H; simpl; [done|].
  rewrite (H n) by (by left). apply IH. intros ??. apply H. by right.
Qed.

Lemma getRera_of_page pdp_url st resp :
  truthy pdp_url = true →
  request_returns st (GetDetail pdp_url) resp →
  (getRera pdp_url st).1 = Ret (extract_rera (content resp)).
Proof.
  intros Ht [Hn Hs]. unfold getRera, try_except. rewrite Ht. simpl.
  rewrite getRera_body_eq. simpl. by rewrite Hn, Hs.
Qed.

(** The selectors are tried in their order: the text of the first one whose
    element has non-empty text is the result, whatever the later selectors
    and the free-text scan would find. *)
Theorem getRera_first_selector_with_text
    (pdp_url : pyval) (st : state) (resp : response)
    (before after : list str) (selector text : str) :
  truthy pdp_url = true →
  request_returns st (GetDetail pdp_url) resp →
  rera_selectors = before ++ selector :: after →
  (∀ s t, s ∈ before → select_one (content resp) s = Some t → t = []) →
  select_one (content resp) selector = Some text →
  text ≠ [] →
  (getRera pdp_url st).1 = Ret text.
Proof.
  intros Ht Hr Hsel Hbefore Hone Hne.
  rewrite (getRera_of_page _ _ _ Ht Hr). f_equal. unfold extract_rera.
  rewrite Hsel, probe_skip by done. simpl. rewrite Hone.
  by rewrite !(nonempty_true text Hne).
Qed.

Lemma getRera_first_selector_with_text_witness :
  (getRera (PStr (lit "a-pdp"))
     (state_of (λ _ _, html (rera_page (lit "P52100001"))))).1
  = Ret (lit "P52100001").
Proof.
  apply (getRera_first_selector_with_text (PStr (lit "a-pdp"))
           (state_of (λ _ _, html (rera_page (lit "P52100001"))))
           {| raise_for_status := None; json := inl JSONDecodeError;
              content := rera_page (lit "P52100001") |}
           (take 3 rera_selectors) [lit ".rera-number"] (lit "span.rera-id")).
  - reflexivity.
  - split; reflexivity.
  - reflexivity.
  - intros s t Hs. simpl in Hs.
    rewrite !elem_of_cons, elem_of_nil in Hs.
    destruct Hs as [->|[->|[->|[]]]]; discriminate.
  - reflexivity.
  - discriminate.
Defined.

(** When no selector finds text, the result is the parent text of the
    first string node whose lower-cased parent text mentions "rera". *)
Theorem getRera_free_text_fallback
    (pdp_url : pyval) (st : state) (resp : response)
    (skipped rest : list text_node) (element : text_node) :
  truthy pdp_url = true →
  request_returns st (GetDetail pdp_url) resp →
  (∀ s t, s ∈ rera_selectors → select_one (content resp) s = Some t → t = []) →
  find_all_rera (content resp) = skipped ++ element :: rest →
  (∀ n, n ∈ skipped → is_infix (lit "rera") (parent_text_lower n) = false) →
  is_infix (lit "rera") (parent_text_lower element) = true →
  parent_text element ≠ [] →
  (getRera pdp_url st).1 = Ret (parent_text element).
Proof.
  intros Ht Hr Hsel Hall Hskip Hel Hne.
  rewrite (getRera_of_page _ _ _ Ht Hr). f_equal. unfold extract_rera.
  rewrite probe_no_text by done. simpl.
  rewrite Hall, scan_skip by done. simpl. rewrite Hel.
  by rewrite (nonempty_true _ Hne).
Qed.

Lemma getRera_free_text_fallback_witness :
  (getRera (PStr (lit "a-pdp"))
     (state_of (λ _ _, html
        {| select_one := λ _, None;
           find_all_rera :=
             [{| parent_text := lit "Contact us"; parent_text_lower := lit "contact us" |};
              {| parent_text := lit "RERA No: P521";
                 parent_text_lower := lit "rera no: p521" |}] |}))).1
  = Ret (lit "RERA No: P521").
Proof.
  apply (getRera_free_text_fallback (PStr (lit "a-pdp")) _
           {| raise_for_status := None; json := inl JSONDecodeError;
              content :=
                {| select_one := λ _, None;
                   find_all_rera :=
                     [{| parent_text := lit "Contact us";
                         parent_text_lower := lit "contact us" |};
                      {| parent_text := lit "RERA No: P521";
                         parent_text_lower := lit "rera no: p521" |}] |} |}
           [{| parent_text := lit "Contact us"; parent_text_lower := lit "contact us" |}]
           []
           {| parent_text := lit "RERA No: P521";
              parent_text_lower := lit "rera no: p521" |}).
  - reflexivity.
  - split; reflexivity.
  - intros s t _ [=].
  - reflexivity.
  - intros n Hn. apply list_elem_of_singleton in Hn as ->. reflexivity.
  - reflexivity.
  - discriminate.
Defined.

Lemma getRera_state pdp_url st :
  (getRera pdp_url st).2
  = if truthy pdp_url then with_env (sent_request (GetDetail pdp_url)) st else st.
Proof.
  unfold getRera, try_except. destruct (truthy pdp_url); simpl; [|done].
  rewrite getRera_body_eq. simpl.
  destruct (next_response st (GetDetail pdp_url)) as [e| |resp]; simpl.
  - by destruct (is_Timeout e), (is_RequestException e).
  - done.
  - destruct (raise_for_status resp) as [e|]; [|done].
    by destruct (is_Timeout e), (is_RequestException e).
Qed.

(** Whatever the request does (answer, error, timeout, interrupt), a call
    of [getRera] with a detail path sends exactly one request and changes
    nothing else: there is no retry, no pause, and no file or directory is
    touched. *)
Theorem getRera_sends_one_request (pdp_url : pyval) (st : state) :
  truthy pdp_url = true →
  sent (env (getRera pdp_url st).2) = S (sent (env st))
  ∧ trace (env (getRera pdp_url st).2) = trace (env st) ++ [EvGet (GetDetail pdp_url)]
  ∧ files (env (getRera pdp_url st).2) = files (env st)
  ∧ dirs (env (getRera pdp_url st).2) = dirs (env st)
  ∧ clock (env (getRera pdp_url st).2) = clock (env st)
  ∧ self (getRera pdp_url st).2 = self st.
Proof. intros Ht. rewrite getRera_state, Ht. done. Qed.

Lemma getRera_sends_one_request_witness :
  sent (env (getRera (PStr (lit "a-pdp")) (state_of (λ _ _, GetInterrupted))).2) = 1%nat.
Proof.
  apply (getRera_sends_one_request (PStr (lit "a-pdp"))
           (state_of (λ _ _, GetInterrupted))).
  reflexivity.
Defined.

(** ** Persistence Sink: result, failures, successive flushes *)

(** No exception leaves [write_to_csv]: it returns a boolean, which is
    [True] exactly when the batch is not empty, the file could be opened,
    no record has a key outside the eight field names, and utf-8 can encode
    the row of every record (no cell is a string with a lone surrogate).
    The exceptions are those of [open] and of [writerow]; a
    [KeyboardInterrupt], which the model lets arrive during a request only,
    is not among them. *)
Theorem write_to_csv_result (projects : list dict) (m : mode) (st : state) :
  ∃ b, (write_to_csv projects m st).1 = Ret b
       ∧ (b = true ↔ projects ≠ []
                      ∧ can_open st (csv_filename (self st))
                      ∧ Forall known_keys projects
                      ∧ Forall (λ d, encodable_row d = true) projects).
Proof.
  destruct (decide (projects = [])) as [->|Hne].
  - exists false. split; [done|]. split; [done|]. by intros [? _].
  - rewrite write_to_csv_eq by done.
    destruct (can_open_b (env st) (csv_filename (self st))) eqn:Hopen.
    + exists (forallb valid_record projects). split; [done|].
      rewrite forallb_valid_known, Forall_and. apply can_open_b_true in Hopen.
      naive_solver.
    + exists false. split; [done|]. split; [done|]. intros (_ & Hc & _).
      apply can_open_b_true in Hc. congruence.
Qed.

(** When the file cannot be opened (its directory is missing, or the path
    is a directory), a non-empty batch gives [False]: the attempt to open is
    the only thing that happened, no file or directory has changed. *)
Theorem write_to_csv_cannot_open (projects : list dict) (m : mode) (st : state) :
  projects ≠ [] →
  ¬ can_open st (csv_filename (self st)) →
  write_to_csv projects m st
  = (Ret false, with_env (log (EvOpen (csv_filename (self st)) m)) st)
  ∧ files (env (write_to_csv projects m st).2) = files (env st)
  ∧ dirs (env (write_to_csv projects m st).2) = dirs (env st).
Proof.
  intros Hne Hno. rewrite write_to_csv_eq by done.
  destruct (can_open_b (env st) (csv_filename (self st))) eqn:Hopen; [|done].
  by apply can_open_b_true in Hopen.
Qed.

Lemma write_to_csv_cannot_open_witness :
  write_to_csv [listing_record "Green Acres" "2BHK" "P52100001"] W
    (state_of (λ _ _, GetRaises Timeout))
  = (Ret false,
     with_env (log (EvOpen (lit "output/magicbricks_projects.csv") W))
       (state_of (λ _ _, GetRaises Timeout))).
Proof.
  apply (write_to_csv_cannot_open
           [listing_record "Green Acres" "2BHK" "P52100001"] W
           (state_of (λ _ _, GetRaises Timeout))).
  - discriminate.
  - intros [_ H]. vm_compute in H. discriminate.
Defined.

(** A record that [writerow] refuses stops the flush: one with a key
    outside the field names ([ValueError]) or with a cell the utf-8 file
    cannot encode ([UnicodeEncodeError]).  When it is the first such record
    of the batch, the result is [False], the header and the rows of the
    records before it are in the file, its own row and the rows of the
    later records are not. *)
Theorem write_to_csv_stops_at_refused_record
    (good rest : list dict) (bad : dict) (m : mode) (st : state) :
  Forall (λ d, known_keys d ∧ encodable_row d = true) good →
  ¬ (known_keys bad ∧ encodable_row bad = true) →
  can_open st (csv_filename (self st)) →
  (write_to_csv (good ++ bad :: rest) m st).1 = Ret false
  ∧ file_lines (write_to_csv (good ++ bad :: rest) m st).2 (csv_filename (self st))
    = kept_lines m (file_lines st (csv_filename (self st)))
        ++ header_lines m (file_lines st (csv_filename (self st)))
        ++ map (λ d, Row (row_of d)) good.
Proof.
  intros Hgood Hbad Hopen. apply can_open_b_true in Hopen.
  destruct (valid_prefix_until good bad rest Hgood Hbad) as [Hp Hf].
  rewrite write_to_csv_eq by (by destruct good).
  rewrite Hopen, Hp, Hf. split; [done|].
  apply (flushed_spec (csv_filename (self st)) m good (env st)).
Qed.

Lemma write_to_csv_stops_at_refused_record_witness :
  ((write_to_csv
      [listing_record "Green Acres" "2BHK" "P52100001"; stray_record;
       listing_record "Blue Hills" "3BHK" "P52100002"] W
      (fresh_state (λ _ _, GetRaises Timeout))).1 = Ret false
   ∧ file_lines
       (write_to_csv
          [listing_record "Green Acres" "2BHK" "P52100001"; stray_record;
           listing_record "Blue Hills" "3BHK" "P52100002"] W
          (fresh_state (λ _ _, GetRaises Timeout))).2
       (lit "output/magicbricks_projects.csv")
     = [Row header_row; Row (row_of (listing_record "Green Acres" "2BHK" "P52100001"))])
  ∧ ((write_to_csv
        [listing_record "Green Acres" "2BHK" "P52100001"; surrogate_record;
         listing_record "Blue Hills" "3BHK" "P52100002"] A
        (fresh_state (λ _ _, GetRaises Timeout))).1 = Ret false
     ∧ file_lines
         (write_to_csv
            [listing_record "Green Acres" "2BHK" "P52100001"; surrogate_record;
             listing_record "Blue Hills" "3BHK" "P52100002"] A
            (fresh_state (λ _ _, GetRaises Timeout))).2
         (lit "output/magicbricks_projects.csv")
       = [Row header_row; Row (row_of (listing_record "Green Acres" "2BHK" "P52100001"))]).
Proof.
  split.
  - apply (write_to_csv_stops_at_refused_record
             [listing_record "Green Acres" "2BHK" "P52100001"]
             [listing_record "Blue Hills" "3BHK" "P52100002"] stray_record W
             (fresh_state (λ _ _, GetRaises Timeout))).
    + constructor; [|constructor]. apply valid_record_known. reflexivity.
    + intros H. apply valid_record_known in H. discriminate.
    + apply can_open_b_true. reflexivity.
  - apply (write_to_csv_stops_at_refused_record
             [listing_record "Green Acres" "2BHK" "P52100001"]
             [listing_record "Blue Hills" "3BHK" "P52100002"] surrogate_record A
             (fresh_state (λ _ _, GetRaises Timeout))).
    + constructor; [|constructor]. apply valid_record_known. reflexivity.
    + intros H. apply valid_record_known in H. discriminate.
    + apply can_open_b_true. reflexivity.
Defined.

Lemma write_to_csv_flushed projects m st :
  projects ≠ [] →
  Forall (λ d, known_keys d ∧ encodable_row d = true) projects →
  can_open st (csv_filename (self st)) →
  write_to_csv projects m st
  = (Ret true,
     with_env (λ w, rows_written (csv_filename (self st)) projects
                      (header_written (csv_filename (self st)) m
                         (opened_for (csv_filename (self st)) m w))) st).
Proof.
  intros Hne Hall Hopen. apply can_open_b_true in Hopen.
  rewrite write_to_csv_eq by done. rewrite Hopen, valid_prefix_all by done.
  apply forallb_valid_known in Hall. by rewrite Hall.
Qed.

(** Two flushes in a row, the second in append mode, of records that
    [writerow] accepts (no key outside the field names, no cell the utf-8
    file cannot encode): both succeed, and the file holds what the first
    flush kept of it, the header at most once (written by the first
    flush), then the rows of the first batch and the rows of the second,
    in order. *)
Theorem write_to_csv_then_append
    (batch1 batch2 : list dict) (m : mode) (st : state) :
  batch1 ≠ [] → batch2 ≠ [] →
  Forall (λ d, known_keys d ∧ encodable_row d = true) batch1 →
  Forall (λ d, known_keys d ∧ encodable_row d = true) batch2 →
  can_open st (csv_filename (self st)) →
  let st1 := (write_to_csv batch1 m st).2 in
  (write_to_csv batch1 m st).1 = Ret true
  ∧ (write_to_csv batch2 A st1).1 = Ret true
  ∧ file_lines (write_to_csv batch2 A st1).2 (csv_filename (self st))
    = kept_lines m (file_lines st (csv_filename (self st)))
        ++ header_lines m (file_lines st (csv_filename (self st)))
        ++ map (λ d, Row (row_of d)) (batch1 ++ batch2).
Proof.
  intros Hne1 Hne2 Hall1 Hall2 Hopen. cbv zeta.
  rewrite (write_to_csv_flushed batch1 m st) by done. cbn [fst snd].
  set (csv := csv_filename (self st)).
  set (st1 := with_env _ st).
  destruct (flushed_spec csv m batch1 (env st)) as (_ & _ & _ & Hd & Hl & _).
  assert (can_open st1 (csv_filename (self st1))) as Hopen1.
  { destruct Hopen as [Hnd Hpar]. split.
    - change (dirs (env st1)) with
        (dirs (rows_written csv batch1 (header_written csv m (opened_for csv m (env st))))).
      by rewrite Hd.
    - unfold parent_exists in *.
      change (dirs (env st1)) with
        (dirs (rows_written csv batch1 (header_written csv m (opened_for csv m (env st))))).
      by rewrite Hd. }
  rewrite (write_to_csv_flushed batch2 A st1) by done. cbn [fst snd].
  split; [done|]. split; [done|].
  change (csv_filename (self st1)) with csv.
  destruct (flushed_spec csv A batch2 (env st1)) as (_ & _ & _ & _ & Hl2 & _).
  unfold file_lines. fold (lines_at (env st) csv).
  match goal with |- default [] (files (env ?s) !! csv) = _ =>
    change (default [] (files (env s) !! csv))
      with (lines_at (rows_written csv batch2
                        (header_written csv A (opened_for csv A (env st1)))) csv)
  end.
  rewrite Hl2.
  change (lines_at (env st1) csv) with
    (lines_at (rows_written csv batch1 (header_written csv m (opened_for csv m (env st)))) csv).
  rewrite Hl. rewrite map_app.
  assert (header_lines A
            (kept_lines m (lines_at (env st) csv)
             ++ header_lines m (lines_at (env st) csv)
             ++ map (λ d, Row (row_of d)) batch1) = []) as Hh.
  { unfold header_lines at 1. rewrite (bool_decide_false (A = W)) by done.
    rewrite bool_decide_false; [done|].
    destruct batch1; [done|]. intros H.
    apply app_eq_nil in H as [_ H]. apply app_eq_nil in H as [_ H]. done. }
  unfold kept_lines at 1. rewrite (bool_decide_false (A = W)) by done.
  rewrite Hh. simpl. by rewrite ?app_nil_r, <- ?app_assoc.
Qed.

Lemma write_to_csv_then_append_witness :
  file_lines
    (write_to_csv [listing_record "Blue Hills" "3BHK" "P52100002"] A
       (write_to_csv [listing_record "Green Acres" "2BHK" "P52100001"] W
          (fresh_state (λ _ _, GetRaises Timeout))).2).2
    (lit "output/magicbricks_projects.csv")
  = [Row header_row;
     Row (row_of (listing_record "Green Acres" "2BHK" "P52100001"));
     Row (row_of (listing_record "Blue Hills" "3BHK" "P52100002"))].
Proof.
  apply (write_to_csv_then_append
           [listing_record "Green Acres" "2BHK" "P52100001"]
           [listing_record "Blue Hills" "3BHK" "P52100002"] W
           (fresh_state (λ _ _, GetRaises Timeout))).
  - discriminate.
  - discriminate.
  - constructor; [|constructor]. apply valid_record_known. reflexivity.
  - constructor; [|constructor]. apply valid_record_known. reflexivity.
  - apply can_open_b_true. reflexivity.
Defined.

(** ** Page Harvester: skipped records, counters, no exception *)

Lemma time_sleep_eq secs st : time_sleep secs st = (Ret tt, with_env (slept secs) st).
Proof. done. Qed.



(** An item of the records array that is not a JSON object has no [get]:
    it is skipped, [failed_count] goes up by one, and nothing else changes
    (no record, no registration counter, no request). *)
Theorem harvest_project_skips_non_object
    (project : pyval) (l : page_locals) (st : state) :
  (∀ d, project ≠ PDict d) →
  harvest_project project (l, st) = (Ret tt, (l, with_self incr_failed_count st)).
Proof.
  intros Hnd. destruct project; try done. by destruct (Hnd d).
Qed.

Lemma harvest_project_skips_non_object_witness :
  harvest_project (PStr (lit "not a record"))
    (empty_page, state_of (λ _ _, GetRaises Timeout))
  = (Ret tt, (empty_page,
              with_self incr_failed_count (state_of (λ _ _, GetRaises Timeout)))).
Proof.
  apply harvest_project_skips_non_object. discriminate.
Defined.




(** How a call of [scrape_single_page] ends: interrupted during the
    listing request, with nothing, or with what the record loop built. *)
Lemma py_getitem_returns_or_raises v key : py_getitem v key = Interrupt → False.
Proof. destruct v; simpl; try done. by destruct (dict_has _ _). Qed.

Ltac returned_nothing :=
  right; left; first [apply handler_returns_nothing | reflexivity].

Lemma scrape_single_page_cases page_no st :
  scrape_single_page page_no st
  = (Interrupt, with_env (sent_request (GetListing page_no)) st)
  ∨ scrape_single_page page_no st
    = (Ret ([], zero_stats), with_env (sent_request (GetListing page_no)) st)
  ∨ ∃ items,
      scrape_single_page page_no st
      = match for_each items harvest_project
                (empty_page, with_env (sent_request (GetListing page_no)) st) with
        | (Ret _, ls) => (Ret (projects ls.1, rera_stats ls.1), ls.2)
        | (Raise _, ls) => (Ret ([], zero_stats), ls.2)
        | (Interrupt, ls) => (Interrupt, ls.2)
        end.
Proof.
  unfold scrape_single_page, try_except, scrape_single_page_body, session_get,
    check_status, response_json, bind, get, modify, lift, in_frame. simpl.
  destruct (next_response st (GetListing page_no)) as [e| |resp]; simpl;
    [returned_nothing | by left |].
  destruct (raise_for_status resp) as [e|]; simpl;
    [returned_nothing|].
  destruct (json resp) as [e|data]; simpl;
    [returned_nothing|].
  destruct (py_contains_cases (lit "projectsCards") data) as [Hc|[Hc|Hc]];
    rewrite Hc; simpl; [|by right; left|returned_nothing].
  destruct (py_getitem data (lit "projectsCards")) as [cards|e|] eqn:Hg; simpl;
    [|returned_nothing|by apply py_getitem_returns_or_raises in Hg].
  destruct (truthy cards); simpl; [|by right; left].
  destruct (py_len cards) as [n|e|] eqn:Hl; simpl;
    [|returned_nothing|by destruct cards].
  destruct (py_iter cards) as [items|e|] eqn:Hi; simpl;
    [|returned_nothing|by destruct cards].
  right. right. exists items. fold empty_page.
  destruct (for_each items harvest_project _) as [[[]|e|] [l1 st1]]; simpl; try done.
  first [apply handler_returns_nothing | reflexivity].
Qed.

(** [scrape_single_page] never propagates an exception, whatever the
    listing answers (any JSON value as body, anything as records) and
    whatever the detail pages do. *)
Theorem scrape_single_page_raises_nothing (page_no : Z) (st : state) :
  ∀ e, (scrape_single_page page_no st).1 ≠ Raise e.
Proof.
  intros e. destruct (scrape_single_page_cases page_no st) as [H|[H|[items H]]];
    rewrite H; try done.
  by destruct (for_each items harvest_project _) as [[[]|e'|] ?].
Qed.




(** ** Run Controller: the loop, the finalization, the run *)

Lemma write_to_csv_returns projects m st :
  ∃ b, (write_to_csv projects m st).1 = Ret b.
Proof.
  destruct (decide (projects = [])) as [->|Hne]; [by exists false|].
  rewrite write_to_csv_eq by done. destruct (can_open_b _ _); by eexists.
Qed.

(** What a flush, successful or not, leaves alone. *)
Lemma write_to_csv_frame projects m st :
  self (write_to_csv projects m st).2 = self st
  ∧ net (env (write_to_csv projects m st).2) = net (env st)
  ∧ sent (env (write_to_csv projects m st).2) = sent (env st)
  ∧ clock (env (write_to_csv projects m st).2) = clock (env st)
  ∧ dirs (env (write_to_csv projects m st).2) = dirs (env st)
  ∧ ∀ p, p ≠ csv_filename (self st) →
         files (env (write_to_csv projects m st).2) !! p = files (env st) !! p.
Proof.
  destruct (decide (projects = [])) as [->|Hne]; [done|].
  rewrite write_to_csv_eq by done. destruct (can_open_b _ _); [|done].
  destruct (flushed_spec (csv_filename (self st)) m (valid_prefix projects) (env st))
    as (Hn & Hs & Hc & Hd & _ & Hf).
  cbn [fst snd with_env self env]. done.
Qed.

Lemma page_body_eq start_page end_page batch_size page_no l st :
  page_body start_page end_page batch_size page_no (l, st)
  = match scrape_single_page page_no st with
    | (Ret r, st1) =>
        let ls := after_page start_page batch_size page_no r l st1 in
        (Ret tt, (ls.1, page_pause end_page page_no ls.2))
    | (Raise e, st1) => (Raise e, (l, st1))
    | (Interrupt, st1) => (Interrupt, (l, st1))
    end.
Proof.
  unfold page_body, bind, zoom, locally, locals, after_page, after_batch_step,
    page_pause. simpl.
  destruct (scrape_single_page page_no st) as [[[page_projects page_stats]|e|] st1];
    simpl; [|done..].
  destruct (bool_decide (page_projects = [])); simpl.
  - by destruct (page_no <? end_page).
  - destruct (batch_size <=? _); simpl.
    + destruct (write_to_csv_returns
                  (current_batch l ++ page_projects)
                  (batch_mode page_no start_page batch_size
                     (extend page_projects (add_stats page_stats l))) st1) as [b Hb].
      destruct (write_to_csv _ _ st1) as [o st2]. simpl in Hb. subst o. simpl.
      by destruct (page_no <? end_page).
    + by destruct (page_no <? end_page).
Qed.

Section run_invariants.

Variables start_page end_page batch_size : Z.

(** A property of the locals and the state that every way through the
    body of the page loop keeps. *)
Variable keeps : run_locals * state → Prop.

Hypothesis keeps_interrupt :
  ∀ page_no l st st',
    scrape_single_page page_no st = (Interrupt, st') →
    keeps (l, st) → keeps (l, st').
Hypothesis keeps_page :
  ∀ page_no l st r st',
    scrape_single_page page_no st = (Ret r, st') →
    keeps (l, st) → keeps (after_page start_page batch_size page_no r l st').
Hypothesis keeps_pause :
  ∀ l st, keeps (l, st) → keeps (l, with_env (slept 2) st).

Lemma page_loop_invariant pages l st :
  keeps (l, st) →
  keeps (page_loop start_page end_page batch_size pages (l, st)).2.
Proof.
  revert l st. induction pages as [|page_no pages IH]; intros l st Hl; simpl; [done|].
  rewrite page_body_eq.
  destruct (scrape_single_page page_no st) as [[r|e|] st1] eqn:Hpage; simpl.
  - pose proof (keeps_page _ _ _ _ _ Hpage Hl) as Hr.
    destruct (after_page start_page batch_size page_no r l st1) as [l2 st2].
    apply IH. unfold page_pause. simpl. destruct (page_no <? end_page); auto.
  - by destruct (scrape_single_page_never_raises page_no st e st1).
  - by eapply keeps_interrupt.
Qed.

End run_invariants.

Lemma page_loop_returns start_page end_page batch_size pages s :
  (page_loop start_page end_page batch_size pages s).1 = Ret tt.
Proof.
  revert s. induction pages as [|page_no pages IH]; intros s; simpl; [done|].
  destruct (page_body _ _ _ _ s) as [[[]|e|] s']; simpl; [apply IH| |done].
  unfold bind, zoom, modify. simpl. apply IH.
Qed.

Lemma write_json_eq path all st :
  try_except (write_json path all) (λ _, ret tt) st
  = (Ret tt, snapshot_step path all st).
Proof.
  unfold try_except, write_json, bind, snapshot_step, snapshot_written, snapshot_torn.
  rewrite open_eq_b. cbv zeta. fold (snapshot_of all).
  destruct (can_open_b (env st) path); destruct (json_encodable (snapshot_of all));
    reflexivity.
Qed.

(** The run from the page loop on, in the state [st] the backup step
    left: the page loop, the finalization flush, the snapshot. *)
Lemma run_after_backup start_page end_page batch_size (json_path : str) st :
  (page_loop start_page end_page batch_size (range start_page (end_page + 1)) ;;
   l <- locals ;;
   (if negb (bool_decide (current_batch l = [])) then
      zoom (write_to_csv (current_batch l) (final_mode l)) ;; ret tt
    else ret tt) ;;
   zoom (try_except (write_json json_path (all_projects l)) (λ _, ret tt)) ;;
   ret (all_projects l, total_rera_stats l))%M (empty_run, st)
  = let ls := loop_end start_page end_page batch_size st in
    (Ret (all_projects ls.1, total_rera_stats ls.1),
     (ls.1, snapshot_step json_path (all_projects ls.1) (finalized ls.1 ls.2))).
Proof.
  unfold bind at 1. unfold loop_end, finalized.
  pose proof (page_loop_returns start_page end_page batch_size
                (range start_page (end_page + 1)) (empty_run, st)) as Hret.
  destruct (page_loop _ _ _ _ _) as [o [l st1]]. simpl in Hret. subst o.
  cbn [fst snd]. unfold bind at 1, locals at 1. cbn [fst snd].
  unfold bind at 1.
  destruct (bool_decide (current_batch l = [])) eqn:Hb; cbn [negb].
  - unfold ret at 1. unfold bind at 1, zoom at 1. cbn [fst snd].
    rewrite write_json_eq. reflexivity.
  - unfold bind at 1, zoom at 1. cbn [fst snd].
    destruct (write_to_csv_returns (current_batch l) (final_mode l) st1) as [b Hw].
    destruct (write_to_csv _ _ st1) as [o st2]. simpl in Hw. subst o.
    unfold ret at 1. unfold bind at 1, zoom at 1. cbn [fst snd].
    rewrite write_json_eq. reflexivity.
Qed.

Lemma os_rename_frame src dst st :
  (os_rename src dst st).1 ≠ Interrupt
  ∧ self (os_rename src dst st).2 = self st.
Proof.
  unfold os_rename, bind, modify, get. cbv beta iota zeta.
  change (files (env (with_env (log (EvRename src dst)) st))) with (files (env st)).
  change (dirs (env (with_env (log (EvRename src dst)) st))) with (dirs (env st)).
  change (parent_exists (env (with_env (log (EvRename src dst)) st)) dst)
    with (parent_exists (env st) dst).
  destruct (files (env st) !! src).
  - destruct (negb (parent_exists (env st) dst)); [done|].
    by destruct (bool_decide (dst ∈ dirs (env st))).
  - destruct (bool_decide (src ∈ dirs (env st))); [|done].
    destruct (negb (parent_exists (env st) dst)); [done|].
    by destruct (bool_decide (is_Some (files (env st) !! dst))).
Qed.

(** A run taken apart: the backup step, when it is due, then the page
    loop, the finalization flush and the snapshot. *)
Lemma scrape_multiple_pages_eq start_page end_page batch_size st :
  scrape_multiple_pages start_page end_page batch_size st
  = match (if backup_due start_page st
           then os_rename (csv_filename (self st))
                  (backup_name_of (clock (env st)) (csv_filename (self st))) st
           else (Ret tt, st)) with
    | (Ret _, st0) =>
        let ls := loop_end start_page end_page batch_size st0 in
        (Ret (all_projects ls.1, total_rera_stats ls.1),
         snapshot_step (json_filename (self st)) (all_projects ls.1)
           (finalized ls.1 ls.2))
    | (Raise e, st0) => (Raise e, st0)
    | (Interrupt, st0) => (Interrupt, st0)
    end.
Proof.
  unfold scrape_multiple_pages, bind at 1, in_frame, scrape_multiple_pages_body.
  unfold bind at 1, zoom at 1, get at 1. cbn [fst snd].
  unfold bind at 1, zoom at 1, os_path_exists, bind at 1, get at 1, ret at 1.
  cbn [fst snd]. fold (backup_due start_page st). fold empty_run.
  destruct (backup_due start_page st) eqn:Hdue.
  - unfold bind at 1, bind at 1, zoom at 1, get at 1. cbn [fst snd].
    unfold zoom at 1. cbn [fst snd].
    destruct (os_rename _ _ st) as [[[]|e|] st0]; [|done..].
    rewrite run_after_backup. reflexivity.
  - unfold bind at 1, ret at 1. rewrite run_after_backup. reflexivity.
Qed.

(** *** What a run leaves alone *)

Lemma untouched_refl keep st : untouched keep st st.
Proof. done. Qed.

Lemma untouched_trans keep st1 st2 st3 :
  untouched keep st1 st2 → untouched keep st2 st3 → untouched keep st1 st3.
Proof.
  intros (Hd & Ho & Hc & Hj & Hf) (Hd' & Ho' & Hc' & Hj' & Hf').
  unfold untouched. rewrite Hd', Ho', Hc', Hj'. repeat (split; [done|]).
  intros p Hp. by rewrite Hf', Hf.
Qed.

Lemma harvest_project_untouched project l st :
  untouched (λ _, True) st (harvest_project project (l, st)).2.2.
Proof.
  unfold harvest_project, try_except, process_project, bind, lift, zoom.
  destruct project as [| | | | | |d]; simpl; try done.
  destruct (truthy (dict_get d (lit "pdpUrl") (PStr []))) eqn:Ht; simpl; [|done].
  pose proof (getRera_state (dict_get d (lit "pdpUrl") (PStr [])) st) as Hst.
  rewrite Ht in Hst.
  destruct (getRera _ st) as [[rera|e|] st1]; simpl in *; subst st1; try done.
  by destruct (rera_found rera).
Qed.

Lemma for_each_harvest_untouched items l st :
  untouched (λ _, True) st (for_each items harvest_project (l, st)).2.2.
Proof.
  revert l st. induction items as [|project items IH]; intros l st; simpl; [done|].
  unfold bind.
  pose proof (harvest_project_untouched project l st) as Hstep.
  destruct (harvest_project project (l, st)) as [[[]|e|] [l1 st1]]; simpl in *;
    try done.
  eapply untouched_trans; [exact Hstep|apply IH].
Qed.

Lemma scrape_single_page_untouched page_no st :
  untouched (λ _, True) st (scrape_single_page page_no st).2.
Proof.
  destruct (scrape_single_page_cases page_no st) as [H|[H|[items H]]];
    rewrite H; try done.
  pose proof (for_each_harvest_untouched items empty_page
                (with_env (sent_request (GetListing page_no)) st)) as Hu.
  destruct (for_each items harvest_project _) as [[[]|e|] [l1 st1]]; simpl in *;
    (eapply untouched_trans; [|exact Hu]); done.
Qed.

Lemma untouched_weaken (keep keep' : str → Prop) st st' :
  (∀ p, keep' p → keep p) → untouched keep st st' → untouched keep' st st'.
Proof.
  intros Hk (Hd & Ho & Hc & Hj & Hf). repeat (split; [done|]). auto.
Qed.

Lemma write_to_csv_untouched projects m st :
  untouched (λ p, p ≠ csv_filename (self st)) st (write_to_csv projects m st).2.
Proof.
  destruct (write_to_csv_frame projects m st) as (Hs & _ & _ & _ & Hd & Hf).
  unfold untouched. rewrite Hs. done.
Qed.

Lemma page_loop_untouched start_page end_page batch_size pages l st :
  untouched (λ p, p ≠ csv_filename (self st)) st
    (page_loop start_page end_page batch_size pages (l, st)).2.2.
Proof.
  apply (page_loop_invariant start_page end_page batch_size
           (λ ls, untouched (λ p, p ≠ csv_filename (self st)) st ls.2));
    [| | |apply untouched_refl].
  - intros page_no l0 st0 st' Hpage Hu. simpl in *.
    eapply untouched_trans; [exact Hu|].
    eapply untouched_weaken; [|pose proof (scrape_single_page_untouched page_no st0) as H;
                               rewrite Hpage in H; exact H]. done.
  - intros page_no l0 st0 r st' Hpage Hu. simpl in *.
    assert (untouched (λ p, p ≠ csv_filename (self st)) st st') as Hu'.
    { eapply untouched_trans; [exact Hu|].
      eapply untouched_weaken; [|pose proof (scrape_single_page_untouched page_no st0) as H;
                                 rewrite Hpage in H; exact H]. done. }
    unfold after_page, after_batch_step.
    destruct (bool_decide (r.1 = [])); simpl; [done|].
    destruct (batch_size <=? _); simpl; [|done].
    eapply untouched_trans; [exact Hu'|].
    destruct Hu' as (_ & _ & Hc & _). rewrite <- Hc. apply write_to_csv_untouched.
  - intros l0 st0 Hu. simpl in *. eapply untouched_trans; [exact Hu|done].
Qed.

Lemma finalized_untouched l st :
  untouched (λ p, p ≠ csv_filename (self st)) st (finalized l st).
Proof.
  unfold finalized. destruct (bool_decide _); [done|]. apply write_to_csv_untouched.
Qed.

Lemma snapshot_step_untouched path all st :
  untouched (λ p, p ≠ path) st (snapshot_step path all st).
Proof.
  destruct (opened_for_spec path W (env st)) as (_ & _ & _ & Hd & _ & _ & Hf).
  unfold snapshot_step, snapshot_written, snapshot_torn.
  destruct (json_encodable (snapshot_of all));
    (destruct (can_open_b (env st) path); [|done]);
    (split; [exact Hd|]); repeat (split; [done|]); intros p Hp.
  - change (<[path := lines_at (opened_for path W (env st)) path ++ [Doc (snapshot_of all)]]>
              (files (opened_for path W (env st))) !! p = files (env st) !! p).
    rewrite lookup_insert_ne by done. by apply Hf.
  - change (<[path := lines_at (opened_for path W (env st)) path ++ [Torn (snapshot_of all)]]>
              (files (opened_for path W (env st))) !! p = files (env st) !! p).
    rewrite lookup_insert_ne by done. by apply Hf.
Qed.

Lemma run_end_untouched start_page end_page batch_size st :
  let ls := loop_end start_page end_page batch_size st in
  untouched (λ p, p ≠ csv_filename (self st)) st (finalized ls.1 ls.2).
Proof.
  cbv zeta. unfold loop_end.
  pose proof (page_loop_untouched start_page end_page batch_size
                (range start_page (end_page + 1)) empty_run st) as Hu.
  eapply untouched_trans; [exact Hu|].
  destruct Hu as (_ & _ & Hc & _). rewrite <- Hc. apply finalized_untouched.
Qed.

(** *** The run as a whole *)

(** Only the backup step can make [scrape_multiple_pages] raise: a run
    either returns its corpus and counters, or it was due to back up a
    prior CSV file and ends with the exception [os.rename] raised.  An
    interrupt never leaves it. *)
Theorem scrape_multiple_pages_returns_or_backup_raises
    (start_page end_page batch_size : Z) (st : state) :
  (∃ all totals st',
     scrape_multiple_pages start_page end_page batch_size st = (Ret (all, totals), st'))
  ∨ (backup_due start_page st = true
     ∧ ∃ e st',
         scrape_multiple_pages start_page end_page batch_size st = (Raise e, st')
         ∧ os_rename (csv_filename (self st))
             (backup_name_of (clock (env st)) (csv_filename (self st))) st
           = (Raise e, st')).
Proof.
  rewrite scrape_multiple_pages_eq.
  destruct (backup_due start_page st) eqn:Hdue.
  - destruct (os_rename_frame (csv_filename (self st))
                (backup_name_of (clock (env st)) (csv_filename (self st))) st)
      as [Hni _].
    destruct (os_rename _ _ st) as [[[]|e|] st0]; simpl in *.
    + left. by eexists _, _, _.
    + right. split; [done|]. by exists e, st0.
    + done.
  - left. by eexists _, _, _.
Qed.


Lemma run_returned start_page end_page batch_size st all totals st' :
  scrape_multiple_pages start_page end_page batch_size st = (Ret (all, totals), st') →
  ∃ st0, all = all_projects (loop_end start_page end_page batch_size st0).1
         ∧ totals = total_rera_stats (loop_end start_page end_page batch_size st0).1.
Proof.
  rewrite scrape_multiple_pages_eq.
  destruct (if backup_due start_page st then _ else _) as [[[]|e|] st0]; try done.
  intros [= <- <- _]. by exists st0.
Qed.


(** Every record of the corpus a run returns is a listing record: a dict
    with exactly the eight field names of the CSV header, in that order. *)
Theorem scrape_multiple_pages_listing_records
    (start_page end_page batch_size : Z) (st st' : state)
    (all : list dict) (totals : stats) :
  scrape_multiple_pages start_page end_page batch_size st = (Ret (all, totals), st') →
  Forall (λ d, dict_keys d = fieldnames) all.
Proof.
  intros Hrun. destruct (run_returned _ _ _ _ _ _ _ Hrun) as (st0 & -> & _).
  unfold loop_end.
  pose proof (page_loop_keeps_listing_records start_page end_page batch_size
                (range start_page (end_page + 1)) empty_run st0) as H.
  simpl in H. specialize (H ltac:(constructor)).
  by apply Forall_app in H as [H _].
Qed.

(** Between two pages, and when the page loop ends, the batch in progress
    is empty or shorter than the batch size: the finalization flush never
    writes a full batch. *)
Theorem page_loop_batch_below
    (start_page end_page batch_size : Z) (pages : list Z) (st : state) :
  batch_below batch_size
    (page_loop start_page end_page batch_size pages (empty_run, st)).2.1.
Proof.
  apply (page_loop_invariant start_page end_page batch_size
           (λ ls, batch_below batch_size ls.1)).
  - done.
  - intros page_no l st0 r st1 _ Hl. unfold after_page, after_batch_step. simpl.
    case_bool_decide; simpl; [done|].
    destruct (Z.leb_spec batch_size (len (current_batch l ++ r.1))); simpl.
    + by left.
    + by right.
  - done.
  - by left.
Qed.

Lemma three_records_run :
  scrape_multiple_pages 1 2 20 (fresh_state (two_pages three_records []))
  = (Ret (three_listed, {| success := 0; failed := 3 |}),
     (scrape_multiple_pages 1 2 20 (fresh_state (two_pages three_records []))).2).
Proof. vm_compute. reflexivity. Qed.


Lemma scrape_multiple_pages_listing_records_witness :
  Forall (λ d, dict_keys d = fieldnames) three_listed.
Proof.
  exact (scrape_multiple_pages_listing_records 1 2 20 _ _ _ _ three_records_run).
Defined.

Lemma can_open_b_dirs w w' path :
  dirs w' = dirs w → can_open_b w' path = can_open_b w path.
Proof. intros H. unfold can_open_b, parent_exists. by rewrite H. Qed.

Lemma surrogate_page_run :
  scrape_multiple_pages 1 1 20 (fresh_state (two_pages surrogate_page []))
  = (Ret ([surrogate_record], {| success := 0; failed := 1 |}),
     (scrape_multiple_pages 1 1 20 (fresh_state (two_pages surrogate_page []))).2).
Proof. vm_compute. reflexivity. Qed.

(** A run with no prior CSV file to back up whose JSON file can be
    opened when the run starts.  When the run returns, the JSON file holds
    one thing.  It is the document of exactly the records the run returns
    when utf-8 can encode every string of them.  When one of them holds a
    lone surrogate, [json.dump] raised [UnicodeEncodeError], which the run
    swallowed, and the file holds only the beginning of that document. *)
Theorem scrape_multiple_pages_snapshot
    (start_page end_page batch_size : Z) (st st' : state)
    (all : list dict) (totals : stats) :
  backup_due start_page st = false →
  can_open st (json_filename (self st)) →
  scrape_multiple_pages start_page end_page batch_size st = (Ret (all, totals), st') →
  file_lines st' (json_filename (self st))
  = [if json_encodable (PList (map PDict all))
     then Doc (PList (map PDict all)) else Torn (PList (map PDict all))].
Proof.
  intros Hdue Hopen. rewrite scrape_multiple_pages_eq, Hdue. cbv zeta.
  intros [= <- _ <-].
  destruct (run_end_untouched start_page end_page batch_size st) as (Hd & _).
  apply can_open_b_true in Hopen.
  destruct (opened_for_spec (json_filename (self st)) W
              (env (finalized (loop_end start_page end_page batch_size st).1
                      (loop_end start_page end_page batch_size st).2)))
    as (_ & _ & _ & _ & _ & Hl & _).
  unfold lines_at in Hl.
  unfold snapshot_step, snapshot_written, snapshot_torn, snapshot_of.
  rewrite (can_open_b_dirs _ _ _ Hd), Hopen.
  destruct (json_encodable _);
    unfold file_lines; cbn [env with_env append_line set_files files log];
    rewrite lookup_insert_eq, Hl; reflexivity.
Qed.

Lemma scrape_multiple_pages_snapshot_witness :
  file_lines (scrape_multiple_pages 1 2 20 (fresh_state (two_pages three_records []))).2
    (lit "output/magicbricks_projects.json")
  = [Doc (PList (map PDict three_listed))]
  ∧ file_lines (scrape_multiple_pages 1 1 20 (fresh_state (two_pages surrogate_page []))).2
      (lit "output/magicbricks_projects.json")
    = [Torn (PList [PDict surrogate_record])].
Proof.
  split.
  - apply (scrape_multiple_pages_snapshot 1 2 20
             (fresh_state (two_pages three_records [])) _ three_listed
             {| success := 0; failed := 3 |}).
    + reflexivity.
    + apply can_open_b_true. reflexivity.
    + exact three_records_run.
  - apply (scrape_multiple_pages_snapshot 1 1 20
             (fresh_state (two_pages surrogate_page [])) _ [surrogate_record]
             {| success := 0; failed := 1 |}).
    + reflexivity.
    + apply can_open_b_true. reflexivity.
    + exact surrogate_page_run.
Defined.

(** A run with no prior CSV file to back up writes to no file but its CSV
    and JSON outputs: every other file holds what it held, no directory
    was made or removed, and the scraper still uses the same paths. *)
Theorem scrape_multiple_pages_touches_only_outputs
    (start_page end_page batch_size : Z) (st : state) :
  backup_due start_page st = false →
  let st' := (scrape_multiple_pages start_page end_page batch_size st).2 in
  dirs (env st') = dirs (env st)
  ∧ output_dir (self st') = output_dir (self st)
  ∧ csv_filename (self st') = csv_filename (self st)
  ∧ json_filename (self st') = json_filename (self st)
  ∧ ∀ p, p ≠ csv_filename (self st) → p ≠ json_filename (self st) →
         files (env st') !! p = files (env st) !! p.
Proof.
  intros Hdue. rewrite scrape_multiple_pages_eq, Hdue. cbv zeta. cbn [snd].
  pose proof (run_end_untouched start_page end_page batch_size st) as Hu.
  pose proof (snapshot_step_untouched (json_filename (self st))
                (all_projects (loop_end start_page end_page batch_size st).1)
                (finalized (loop_end start_page end_page batch_size st).1
                   (loop_end start_page end_page batch_size st).2)) as Hs.
  assert (untouched (λ p, p ≠ csv_filename (self st) ∧ p ≠ json_filename (self st)) st
            (snapshot_step (json_filename (self st))
               (all_projects (loop_end start_page end_page batch_size st).1)
               (finalized (loop_end start_page end_page batch_size st).1
                  (loop_end start_page end_page batch_size st).2)))
    as (Hd & Ho & Hc & Hj & Hf).
  { eapply untouched_trans.
    - eapply untouched_weaken; [|exact Hu]. by intros p [? _].
    - eapply untouched_weaken; [|exact Hs]. by intros p [_ ?]. }
  repeat (split; [done|]). intros p ??. by apply Hf.
Qed.

Lemma scrape_multiple_pages_touches_only_outputs_witness :
  dirs (env (scrape_multiple_pages 1 2 20
               (fresh_state (two_pages three_records []))).2)
  = dirs (env (fresh_state (two_pages three_records []))).
Proof.
  apply (scrape_multiple_pages_touches_only_outputs 1 2 20
           (fresh_state (two_pages three_records []))).
  reflexivity.
Defined.

Lemma open_modes_app path tr1 tr2 :
  open_modes path (tr1 ++ tr2) = open_modes path tr1 ++ open_modes path tr2.
Proof.
  induction tr1 as [|ev tr1 IH]; simpl; [done|].
  destruct ev as [| | | |p m| | |]; simpl; try done.
  destruct (bool_decide (p = path)); simpl; by rewrite IH.
Qed.

Lemma open_modes_open path tr p m :
  open_modes path (tr ++ [EvOpen p m])
  = open_modes path tr ++ (if bool_decide (p = path) then [m] else []).
Proof. rewrite open_modes_app. simpl. by destruct (bool_decide (p = path)). Qed.

Lemma open_modes_dump path tr p v :
  open_modes path (tr ++ [EvDump p v]) = open_modes path tr.
Proof. rewrite open_modes_app. simpl. by rewrite app_nil_r. Qed.

Lemma range_empty lo hi : hi ≤ lo → range lo hi = [].
Proof. intros H. unfold range. by replace (Z.to_nat (hi - lo)) with 0%nat by lia. Qed.

(** An empty page range ([end_page < start_page]) with no prior CSV file
    to back up: the run returns no record and zero counters, sends no
    request, does not pause, and goes straight to the snapshot of the
    empty corpus; the CSV file is not opened. *)
Theorem scrape_multiple_pages_empty_range
    (start_page end_page batch_size : Z) (st : state) :
  end_page < start_page →
  backup_due start_page st = false →
  scrape_multiple_pages start_page end_page batch_size st
  = (Ret ([], {| success := 0; failed := 0 |}),
     snapshot_written (json_filename (self st)) [] st)
  ∧ sent (env (scrape_multiple_pages start_page end_page batch_size st).2)
    = sent (env st)
  ∧ open_modes (csv_filename (self st))
      (trace (env (scrape_multiple_pages start_page end_page batch_size st).2))
    = open_modes (csv_filename (self st)) (trace (env st))
      ++ (if bool_decide (json_filename (self st) = csv_filename (self st))
          then [W] else []).
Proof.
  intros Hrange Hdue. rewrite scrape_multiple_pages_eq, Hdue. cbv zeta.
  unfold loop_end. rewrite range_empty by lia. simpl.
  unfold finalized. simpl. split; [done|].
  change (snapshot_step (json_filename (self st)) [] st)
    with (snapshot_written (json_filename (self st)) [] st).
  unfold snapshot_written.
  destruct (opened_for_spec (json_filename (self st)) W (env st))
    as (_ & Hs & _ & _ & Ht & _).
  destruct (can_open_b (env st) (json_filename (self st)));
    cbn [snd env with_env append_line set_files log sent trace].
  - rewrite Hs, Ht, open_modes_dump, open_modes_open. done.
  - rewrite open_modes_open. done.
Qed.

Lemma scrape_multiple_pages_empty_range_witness :
  scrape_multiple_pages 5 4 20 (fresh_state (two_pages three_records []))
  = (Ret ([], {| success := 0; failed := 0 |}),
     snapshot_written (lit "output/magicbricks_projects.json") []
       (fresh_state (two_pages three_records []))).
Proof.
  apply (scrape_multiple_pages_empty_range 5 4 20
           (fresh_state (two_pages three_records []))).
  - reflexivity.
  - reflexivity.
Defined.

Lemma scrape_single_page_interrupted page_no st :
  next_response st (GetListing page_no) = GetInterrupted →
  scrape_single_page page_no st
  = (Interrupt, with_env (sent_request (GetListing page_no)) st).
Proof.
  intros H. unfold scrape_single_page, try_except, scrape_single_page_body,
    session_get, bind, get, modify. simpl. by rewrite H.
Qed.

(** An interrupt during the listing request of a page ends the page loop
    at once: the later pages are not requested, there is no pause, and the
    corpus, the batch and the counters are what they were before that
    page, ready for the finalization. *)
Theorem page_loop_stops_at_interrupt
    (start_page end_page batch_size page_no : Z) (later : list Z)
    (l : run_locals) (st : state) :
  next_response st (GetListing page_no) = GetInterrupted →
  page_loop start_page end_page batch_size (page_no :: later) (l, st)
  = (Ret tt, (l, with_env (sent_request (GetListing page_no)) st)).
Proof.
  intros H. simpl. rewrite page_body_eq.
  by rewrite (scrape_single_page_interrupted _ _ H).
Qed.

Lemma page_loop_stops_at_interrupt_witness :
  page_loop 1 104 20 [1; 2; 3] (empty_run, state_of (λ _ _, GetInterrupted))
  = (Ret tt, (empty_run,
              with_env (sent_request (GetListing 1)) (state_of (λ _ _, GetInterrupted)))).
Proof.
  apply page_loop_stops_at_interrupt. reflexivity.
Defined.

(** ** [__init__]: the output directory *)

Lemma os_makedirs_eq name st :
  os_makedirs name st
  = if bool_decide (name = []) then
      (Raise FileNotFoundError, with_env (log (EvMakedirs name)) st)
    else if existsb (λ d, bool_decide (is_Some (files (env st) !! d))) (made_dirs name)
    then (Raise OtherError, with_env (log (EvMakedirs name)) st)
    else (Ret tt,
          with_env (λ w, set_dirs (list_to_set (made_dirs name) ∪ dirs w)
                           (log (EvMakedirs name) w)) st).
Proof.
  unfold os_makedirs, bind, modify, get. cbv beta iota zeta.
  change (files (env (with_env (log (EvMakedirs name)) st))) with (files (env st)).
  fold (made_dirs name).
  destruct (bool_decide (name = [])); [done|].
  by destruct (existsb _ _).
Qed.

Lemma contains_app c a b : contains c (a ++ b) = contains c a || contains c b.
Proof. apply existsb_app. Qed.

Lemma dirname_head_no_slash b : contains slash b = false → dirname_head b = [].
Proof. destruct b; simpl; [done|]. by intros ->. Qed.

Lemma dirname_head_app a b :
  contains slash b = false → dirname_head (a ++ b) = dirname_head a.
Proof.
  intros Hb. induction a as [|c a IH]; [by apply dirname_head_no_slash|].
  change ((c :: a) ++ b) with (c :: (a ++ b)).
  cbn [dirname_head].
  change (c :: (a ++ b)) with ((c :: a) ++ b).
  rewrite contains_app, Hb, orb_false_r, IH. done.
Qed.

Lemma dirname_head_slash a : dirname_head (a ++ [slash]) = a ++ [slash].
Proof.
  induction a as [|c a IH]; [done|].
  change ((c :: a) ++ [slash]) with (c :: (a ++ [slash])).
  cbn [dirname_head].
  change (c :: (a ++ [slash])) with ((c :: a) ++ [slash]).
  rewrite contains_app. cbn [contains existsb]. rewrite N.eqb_refl.
  rewrite orb_true_r, IH. done.
Qed.

Lemma rstrip_slash_slash s : rstrip_slash (s ++ [slash]) = rstrip_slash s.
Proof. unfold rstrip_slash. by rewrite rev_unit. Qed.

Lemma lstrip_slash_nil r : lstrip_slash r = [] → forallb is_slash r = true.
Proof.
  induction r as [|c r IH]; simpl; [done|].
  destruct (is_slash c); [exact IH|done].
Qed.

Lemma rstrip_slash_nil s : rstrip_slash s = [] → forallb is_slash s = true.
Proof.
  unfold rstrip_slash. intros H.
  assert (lstrip_slash (rev s) = []) as Hl.
  { apply (f_equal (@rev N)) in H. by rewrite rev_involutive in H. }
  apply lstrip_slash_nil in Hl. rewrite forallb_forall in *.
  intros x Hx. apply Hl. by apply in_rev in Hx.
Qed.

Lemma dir_prefixes_whole seen p : rev seen ++ p ∈ dir_prefixes seen p.
Proof.
  revert seen. induction p as [|c p IH]; intros seen; simpl.
  - rewrite app_nil_r. by left.
  - specialize (IH (c :: seen)). simpl in IH. rewrite <- app_assoc in IH. simpl in IH.
    destruct (is_slash c); [by right|done].
Qed.

(** The directory part of an output path, for a file name without a
    separator joined to a non-empty directory: the root, or a directory
    that [os.makedirs] of that directory made sure of. *)
Lemma joined_parent_made dir name :
  dir ≠ [] → contains slash name = false →
  forallb is_slash (dirname (os_path_join dir name)) = true
  ∨ dirname (os_path_join dir name) ∈ made_dirs dir.
Proof.
  intros Hdir Hname.
  assert (is_prefix [slash] name = false) as Hp.
  { destruct name as [|c name]; [done|].
    unfold contains in Hname. cbn [existsb] in Hname.
    apply orb_false_iff in Hname as [Hc _].
    cbn [is_prefix]. by rewrite Hc. }
  assert (∃ H, dirname_head (os_path_join dir name) = H ++ [slash]
               ∧ rstrip_slash (H ++ [slash]) = rstrip_slash dir
               ∧ (forallb is_slash dir = true → forallb is_slash (H ++ [slash]) = true))
    as (H & Hhead & Hstrip & Hall).
  { unfold os_path_join. rewrite Hp.
    destruct (last dir) as [c|] eqn:Hlast; [|by apply last_None in Hlast].
    apply last_Some in Hlast as [dir' ->].
    destruct (is_slash c) eqn:Hc.
    - apply N.eqb_eq in Hc as ->. exists dir'.
      rewrite dirname_head_app, dirname_head_slash by done. done.
    - exists (dir' ++ [c]).
      rewrite (app_assoc _ [slash] name), dirname_head_app, dirname_head_slash by done.
      split; [done|]. split; [apply rstrip_slash_slash|].
      intros Hd. rewrite forallb_app, Hd. done. }
  unfold dirname. rewrite Hhead.
  destruct (forallb is_slash (H ++ [slash])) eqn:Hs; [by left|].
  right. rewrite Hstrip. unfold made_dirs.
  apply list_elem_of_filter. split.
  - intros Hnil. apply rstrip_slash_nil in Hnil. apply Hall in Hnil. congruence.
  - apply list_elem_of_fmap. exists dir. split; [done|].
    apply (dir_prefixes_whole [] dir).
Qed.

(** When the constructor returns, the directory of the CSV file and of
    the JSON file exists (it was made, or was there), so a later write
    cannot fail for a missing directory; no file was touched and both
    counters stand at zero. *)
Theorem MagicBricksScraper_output_dir_exists
    (output_dir : str) (w : world) (st : state) :
  MagicBricksScraper output_dir w = (Ret tt, st) →
  parent_exists (env st) (csv_filename (self st)) = true
  ∧ parent_exists (env st) (json_filename (self st)) = true
  ∧ files (env st) = files w
  ∧ scraped_count (self st) = 0
  ∧ failed_count (self st) = 0.
Proof.
  unfold MagicBricksScraper. rewrite os_makedirs_eq.
  case_bool_decide as Hdir; [done|].
  destruct (existsb _ _); [done|].
  intros [= <-]. cbn [self env with_env csv_filename json_filename scraped_count
                        failed_count].
  assert (∀ name, contains slash name = false →
            parent_exists
              (set_dirs (list_to_set (made_dirs output_dir) ∪ dirs w)
                 (log (EvMakedirs output_dir) w))
              (os_path_join output_dir name) = true) as Hparent.
  { intros name Hname. unfold parent_exists.
    destruct (joined_parent_made output_dir name Hdir Hname) as [Hroot|Hmade].
    - by rewrite Hroot.
    - apply orb_true_iff. right. apply bool_decide_eq_true.
      cbn [dirs set_dirs]. apply elem_of_union. left.
      by apply elem_of_list_to_set. }
  split; [by apply Hparent|]. split; [by apply Hparent|]. done.
Qed.

Lemma MagicBricksScraper_output_dir_exists_witness :
  parent_exists (env (fresh_state (λ _ _, GetRaises Timeout)))
    (csv_filename (self (fresh_state (λ _ _, GetRaises Timeout)))) = true.
Proof.
  apply (MagicBricksScraper_output_dir_exists (lit "output")
           (world_of (λ _ _, GetRaises Timeout))
           (fresh_state (λ _ _, GetRaises Timeout))).
  reflexivity.
Defined.

(** ** Page Harvester: the pace of the detail requests *)


